(** * The Orchestration Layer: manifest builder and post renderer

    A shallow embedding of the blog's build script
    ([scripts/generate-manifest.cjs], in its two revisions) and of the
    data handling of the React components [BlogList], [BlogPost] and [App],
    together with the properties the specification states about them.

    JavaScript strings are modelled as [string] (code units below 256),
    numbers that may be [NaN] as [option Z], time values as [Z]
    milliseconds since the epoch. *)

From Stdlib Require Import ZArith List String Ascii Bool Lia Permutation.
Import ListNotations.

Local Open Scope string_scope.
Local Open Scope Z_scope.

(** ** JavaScript strings *)

Module JsString.

(** The line feed and the double quote, which cannot be typed inside a literal. *)
Definition LF : ascii := "010"%char.
Definition DQ : ascii := "034"%char.
Definition nl : string := String LF EmptyString.
Definition dq : string := String DQ EmptyString.

Definition isEmpty (s : string) : bool :=
  match s with EmptyString => true | String _ _ => false end.

(** [s.slice(0, n)] *)
Fixpoint slice0 (n : nat) (s : string) : string :=
  match n, s with
  | S k, String c r => String c (slice0 k r)
  | _, _ => EmptyString
  end.

(** [s.slice(n)] *)
Fixpoint sliceFrom (n : nat) (s : string) : string :=
  match n, s with
  | S k, String _ r => sliceFrom k r
  | _, _ => s
  end.

(** [s.startsWith(p)] *)
Definition startsWith (p s : string) : bool := String.prefix p s.

(** [s.endsWith(p)] *)
Definition endsWith (p s : string) : bool :=
  (String.length p <=? String.length s)%nat
  && String.eqb (sliceFrom (String.length s - String.length p) s) p.

(** [s.replace(/\.md$/, '')]: the pattern is anchored at the end of the
    input, so at most the final [".md"] is removed. *)
Definition replace_md_end (s : string) : string :=
  if endsWith ".md" s then slice0 (String.length s - 3) s else s.

(** [s.replace(/\n$/, '')] *)
Definition replace_nl_end (s : string) : string :=
  if endsWith nl s then slice0 (String.length s - 1) s else s.

(** [s.split(sep)] for a one-character separator. *)
Fixpoint split (sep : ascii) (s : string) : list string :=
  match s with
  | EmptyString => [EmptyString]
  | String c r =>
      if Ascii.eqb c sep then EmptyString :: split sep r
      else match split sep r with
           | l :: ls => String c l :: ls
           | [] => [String c EmptyString]
           end
  end.

(** [s.split('\n')] *)
Definition lines (s : string) : list string := split LF s.

(** [s.includes(p)] *)
Fixpoint includes (p s : string) : bool :=
  String.prefix p s
  || match s with
     | EmptyString => false
     | String _ r => includes p r
     end.

(** [ls.join('\n')] *)
Fixpoint unlines (ls : list string) : string :=
  match ls with
  | [] => EmptyString
  | [l] => l
  | l :: rest => l ++ nl ++ unlines rest
  end.

(** The white space of [\s] that can occur in a one-byte string. *)
Definition isSpace (c : ascii) : bool :=
  let n := nat_of_ascii c in
  ((n =? 32) || (n =? 9) || (n =? 10) || (n =? 11) || (n =? 12) || (n =? 13) || (n =? 160))%nat.

Fixpoint trimStart (s : string) : string :=
  match s with
  | String c r => if isSpace c then trimStart r else s
  | EmptyString => EmptyString
  end.

Fixpoint rev_onto (s acc : string) : string :=
  match s with
  | EmptyString => acc
  | String c r => rev_onto r (String c acc)
  end.

Definition rev (s : string) : string := rev_onto s EmptyString.

Definition trimEnd (s : string) : string := rev (trimStart (rev s)).

(** [s.trim()] *)
Definition trim (s : string) : string := trimEnd (trimStart s).

Definition isBlank (s : string) : bool := isEmpty (trimStart s).

(** The decimal digits. *)
Definition isDigit (c : ascii) : bool :=
  let n := nat_of_ascii c in ((48 <=? n) && (n <=? 57))%nat.

Definition digit_of_char (c : ascii) : option Z :=
  if isDigit c then Some (Z.of_nat (nat_of_ascii c) - 48) else None.

Definition char_of_digit (d : Z) : ascii := ascii_of_nat (Z.to_nat (d mod 10) + 48).

(** [\w]: letters, digits and the underscore. *)
Definition isWord (c : ascii) : bool :=
  let n := nat_of_ascii c in
  (((48 <=? n) && (n <=? 57)) || ((65 <=? n) && (n <=? 90))
   || ((97 <=? n) && (n <=? 122)) || (n =? 95))%nat.

(** All characters of [s] satisfy [p]. *)
Fixpoint forallb (p : ascii -> bool) (s : string) : bool :=
  match s with
  | EmptyString => true
  | String c r => p c && forallb p r
  end.

(** Reads a run of decimal digits as a number; [None] when some character
    is not a digit. *)
Fixpoint digits_from (acc : Z) (s : string) : option Z :=
  match s with
  | EmptyString => Some acc
  | String c r =>
      match digit_of_char c with
      | Some d => digits_from (10 * acc + d) r
      | None => None
      end
  end.

Definition number_of_digits (s : string) : option Z :=
  match s with
  | EmptyString => None
  | _ => digits_from 0 s
  end.

(** The last [n] decimal digits of a non-negative number, most
    significant first. *)
Fixpoint fixed_digits (n : nat) (z : Z) : string :=
  match n with
  | O => EmptyString
  | S k => fixed_digits k (z / 10) ++ String (char_of_digit z) EmptyString
  end.

(** The number of decimal digits of a positive number, at most [fuel]. *)
Fixpoint width (fuel : nat) (z : Z) : nat :=
  match fuel with
  | O => O
  | S k => if z <? 10 then 1%nat else S (width k (z / 10))
  end.

(** [String(n)] for an integral number. *)
Definition of_Z (z : Z) : string :=
  let a := Z.abs z in
  let s := fixed_digits (width (S (Z.to_nat (Z.log2 a))) a) a in
  if z <? 0 then "-" ++ s else s.

End JsString.

(** ** Time values and calendar dates (ECMA-262, section "Date Objects") *)

Module JsDate.

Definition msPerDay : Z := 86400000.

Definition Day (t : Z) : Z := t / msPerDay.

Definition isLeap (y : Z) : bool :=
  ((y mod 4 =? 0) && negb (y mod 100 =? 0)) || (y mod 400 =? 0).

Definition DaysInYear (y : Z) : Z := if isLeap y then 366 else 365.

Definition DayFromYear (y : Z) : Z :=
  365 * (y - 1970) + (y - 1969) / 4 - (y - 1901) / 100 + (y - 1601) / 400.

(** The largest year whose first day is not after day [d]: an estimate
    from the mean year length, corrected by at most one. *)
Definition YearFromDay (d : Z) : Z :=
  let y := 1970 + (400 * d) / 146097 in
  if DayFromYear (y + 1) <=? d then y + 1
  else if DayFromYear y <=? d then y
  else y - 1.

Definition YearFromTime (t : Z) : Z := YearFromDay (Day t).

Definition InLeapYear (t : Z) : Z := if isLeap (YearFromTime t) then 1 else 0.

Definition DayWithinYear (t : Z) : Z := Day t - DayFromYear (YearFromTime t).

(** The month number, January being 0. *)
Definition MonthFromTime (t : Z) : Z :=
  let d := DayWithinYear t in
  let l := InLeapYear t in
  if d <? 31 then 0
  else if d <? 59 + l then 1
  else if d <? 90 + l then 2
  else if d <? 120 + l then 3
  else if d <? 151 + l then 4
  else if d <? 181 + l then 5
  else if d <? 212 + l then 6
  else if d <? 243 + l then 7
  else if d <? 273 + l then 8
  else if d <? 304 + l then 9
  else if d <? 334 + l then 10
  else 11.

(** The day of the month, from 1. *)
Definition DateFromTime (t : Z) : Z :=
  let d := DayWithinYear t in
  let l := InLeapYear t in
  match MonthFromTime t with
  | 0 => d + 1
  | 1 => d - 30
  | 2 => d - 58 - l
  | 3 => d - 89 - l
  | 4 => d - 119 - l
  | 5 => d - 150 - l
  | 6 => d - 180 - l
  | 7 => d - 211 - l
  | 8 => d - 242 - l
  | 9 => d - 272 - l
  | 10 => d - 303 - l
  | _ => d - 333 - l
  end.

Definition HourFromTime (t : Z) : Z := (t / 3600000) mod 24.
Definition MinFromTime (t : Z) : Z := (t / 60000) mod 60.
Definition SecFromTime (t : Z) : Z := (t / 1000) mod 60.
Definition msFromTime (t : Z) : Z := t mod 1000.

(** The days of a year that precede month [m] (0 to 11). *)
Definition DaysBeforeMonth (leap : bool) (m : Z) : Z :=
  let l := if leap then 1 else 0 in
  match m with
  | 0 => 0
  | 1 => 31
  | 2 => 59 + l
  | 3 => 90 + l
  | 4 => 120 + l
  | 5 => 151 + l
  | 6 => 181 + l
  | 7 => 212 + l
  | 8 => 243 + l
  | 9 => 273 + l
  | 10 => 304 + l
  | _ => 334 + l
  end.

(** [MakeDay(year, month, date)]: months beyond the year and days beyond
    the month roll over. *)
Definition MakeDay (year month date : Z) : Z :=
  let ym := year + month / 12 in
  let mn := month mod 12 in
  DayFromYear ym + DaysBeforeMonth (isLeap ym) mn + date - 1.

(** [Date.UTC(year, month, date)]; years 0 to 99 mean 1900 to 1999. *)
Definition UTC (year month date : Z) : Z :=
  let yr := if (0 <=? year) && (year <=? 99) then 1900 + year else year in
  MakeDay yr month date * msPerDay.

(** [new Date(t).toISOString()]: years outside 0..9999 take a sign and
    six digits. *)
Definition toISOString (t : Z) : string :=
  let y := YearFromTime t in
  let year :=
    if (0 <=? y) && (y <=? 9999) then JsString.fixed_digits 4 y
    else (if y <? 0 then "-" else "+") ++ JsString.fixed_digits 6 (Z.abs y) in
  year ++ "-" ++ JsString.fixed_digits 2 (MonthFromTime t + 1)
       ++ "-" ++ JsString.fixed_digits 2 (DateFromTime t)
       ++ "T" ++ JsString.fixed_digits 2 (HourFromTime t)
       ++ ":" ++ JsString.fixed_digits 2 (MinFromTime t)
       ++ ":" ++ JsString.fixed_digits 2 (SecFromTime t)
       ++ "." ++ JsString.fixed_digits 3 (msFromTime t) ++ "Z".

Definition WeekDay (t : Z) : Z := (Day t + 4) mod 7.

Definition dayName (w : Z) : string :=
  match w with
  | 0 => "Sun" | 1 => "Mon" | 2 => "Tue" | 3 => "Wed" | 4 => "Thu" | 5 => "Fri"
  | _ => "Sat"
  end.

Definition monthName (m : Z) : string :=
  match m with
  | 0 => "Jan" | 1 => "Feb" | 2 => "Mar" | 3 => "Apr" | 4 => "May" | 5 => "Jun"
  | 6 => "Jul" | 7 => "Aug" | 8 => "Sep" | 9 => "Oct" | 10 => "Nov"
  | _ => "Dec"
  end.

(** [new Date(t).toString()] on a host whose time zone is UTC (years
    from 0 to 9999). *)
Definition toStringUTC (t : Z) : string :=
  dayName (WeekDay t) ++ " " ++ monthName (MonthFromTime t)
    ++ " " ++ JsString.fixed_digits 2 (DateFromTime t)
    ++ " " ++ JsString.fixed_digits 4 (YearFromTime t)
    ++ " " ++ JsString.fixed_digits 2 (HourFromTime t)
    ++ ":" ++ JsString.fixed_digits 2 (MinFromTime t)
    ++ ":" ++ JsString.fixed_digits 2 (SecFromTime t)
    ++ " GMT+0000 (Coordinated Universal Time)".

(** The text [YYYY-MM-DD] of a calendar date. *)
Definition ymd (y m d : Z) : string :=
  JsString.fixed_digits 4 y ++ "-" ++ JsString.fixed_digits 2 m
    ++ "-" ++ JsString.fixed_digits 2 d.

(** [new Date(s).getTime()] on the date-only forms of the ECMAScript
    date-time string format ([YYYY], [YYYY-MM], [YYYY-MM-DD], read as
    UTC), as Node's engine reads them: a month from 1 to 12 and a day from
    1 to 31, days beyond the month rolling over.  [None] is [NaN].  Text
    in other formats is left to engine-specific heuristics by the
    standard; this instance answers [NaN] for it. *)
Definition parse (s : string) : option Z :=
  let num a n := JsString.number_of_digits (String.substring a n s) in
  let dash a := match String.get a s with Some c => Ascii.eqb c "-" | None => false end in
  let date y m d :=
    if (1 <=? m) && (m <=? 12) && (1 <=? d) && (d <=? 31)
    then Some (MakeDay y (m - 1) d * msPerDay) else None in
  match String.length s with
  | 4%nat => match num 0%nat 4%nat with Some y => date y 1 1 | None => None end
  | 7%nat =>
      match num 0%nat 4%nat, dash 4%nat, num 5%nat 2%nat with
      | Some y, true, Some m => date y m 1
      | _, _, _ => None
      end
  | 10%nat =>
      match num 0%nat 4%nat, dash 4%nat, num 5%nat 2%nat, dash 7%nat, num 8%nat 2%nat with
      | Some y, true, Some m, true, Some d => date y m d
      | _, _, _, _, _ => None
      end
  | _ => None
  end.

End JsDate.

(** ** JavaScript values *)

(** The values a front-matter attribute can take, and [undefined] for an
    attribute that is absent.  A number is an integer that a double holds
    exactly; a [Date] is its time value, which is never [NaN] for a date that
    comes out of a YAML timestamp. *)
#[local] Set Warnings "-register-all".
Inductive JsValue : Type :=
| JUndefined
| JNull
| JBool (b : bool)
| JNum (n : Z)
| JStr (s : string)
| JDate (t : Z)
| JArr (l : list JsValue).

(** What a JavaScript operation throws. *)
Inductive Exn : Type :=
| SystemError (code syscall path : string)
| YAMLException (reason : string)
| TypeError (message : string)
| SyntaxError (message : string).

(** The outcome of an operation that may throw. *)
Inductive result (A : Type) : Type :=
| Ok (a : A)
| Throw (e : Exn).
Arguments Ok {A} a.
Arguments Throw {A} e.

Definition bind {A B : Type} (r : result A) (k : A -> result B) : result B :=
  match r with
  | Ok a => k a
  | Throw e => Throw e
  end.

Module Js.

(** [ToBoolean] *)
Definition truthy (v : JsValue) : bool :=
  match v with
  | JUndefined | JNull => false
  | JBool b => b
  | JNum n => negb (n =? 0)
  | JStr s => negb (JsString.isEmpty s)
  | JDate _ | JArr _ => true
  end.

(** [a || b] *)
Definition or (a b : JsValue) : JsValue := if truthy a then a else b.

(** An object with string keys, in insertion order. *)
Definition object : Type := list (string * JsValue).

(** [o.key]: the value of the property, [undefined] when it is absent. *)
Fixpoint get (o : object) (key : string) : JsValue :=
  match o with
  | [] => JUndefined
  | (k, v) :: rest => if String.eqb k key then v else get rest key
  end.

Definition has (o : object) (key : string) : bool :=
  existsb (fun kv => String.eqb (fst kv) key) o.

Section ToString.
(** [Date.prototype.toString] prints local time and depends on the
    host's time zone. *)
Variable Date_toString : Z -> string.

(** [String(v)] *)
Fixpoint ToString (v : JsValue) : string :=
  match v with
  | JUndefined => "undefined"
  | JNull => "null"
  | JBool true => "true"
  | JBool false => "false"
  | JNum n => JsString.of_Z n
  | JStr s => s
  | JDate t => Date_toString t
  | JArr l =>
      (fix join (l : list JsValue) : string :=
         match l with
         | [] => EmptyString
         | x :: rest =>
             let sx := match x with
                       | JUndefined | JNull => EmptyString
                       | _ => ToString x
                       end in
             match rest with
             | [] => sx
             | _ :: _ => sx ++ "," ++ join rest
             end
         end) l
  end.
End ToString.

End Js.

(** ** The [front-matter] package

    The build script and the post view both call the npm package
    [front-matter], which splits a text into a YAML header and a body and
    loads the header with [js-yaml].  The package is a dependency, not part
    of the repository; this is a model of it for texts whose lines end
    with a line feed and whose header holds a flat mapping, one
    [key: value] per line, which is the form of every post of the
    repository.  Scalars are resolved as
    [js-yaml] resolves them: empty, [~] and [null] to [null], [true] and
    [false] to booleans, decimal integers to numbers, [YYYY-MM-DD] to a
    [Date] (through [Date.UTC]), quoted and any other text to a string;
    [[a, b]] is a sequence of scalars.  Escapes inside quotes, nested
    mappings, multi-line scalars, comments and other number forms are not
    modelled. *)

Module FrontMatter.

Record FrontMatterResult : Type := {
  attributes : Js.object;
  body : string
}.

Definition isQuoted (q : ascii) (s : string) : bool :=
  (2 <=? String.length s)%nat
  && JsString.startsWith (String q EmptyString) s
  && JsString.endsWith (String q EmptyString) s.

Definition unquote (s : string) : string :=
  String.substring 1 (String.length s - 2) s.

Definition isInteger (s : string) : bool :=
  match s with
  | "0" => true
  | String c r =>
      JsString.isDigit c && negb (Ascii.eqb c "0") && JsString.forallb JsString.isDigit r
  | EmptyString => false
  end.

(** The date-only form of a YAML timestamp: four digits, two digits, two
    digits, with no check of the ranges. *)
Definition timestamp (s : string) : option Z :=
  match String.length s, String.get 4 s, String.get 7 s with
  | 10%nat, Some "-"%char, Some "-"%char =>
      match JsString.number_of_digits (String.substring 0 4 s),
            JsString.number_of_digits (String.substring 5 2 s),
            JsString.number_of_digits (String.substring 8 2 s) with
      | Some y, Some m, Some d => Some (JsDate.UTC y (m - 1) d)
      | _, _, _ => None
      end
  | _, _, _ => None
  end.

Definition isNullText (s : string) : bool :=
  JsString.isEmpty s || String.eqb s "~" || String.eqb s "null"
  || String.eqb s "Null" || String.eqb s "NULL".

(** A scalar that is not a sequence. *)
Definition scalar (s : string) : JsValue :=
  if isNullText s then JNull
  else if String.eqb s "true" || String.eqb s "True" || String.eqb s "TRUE" then JBool true
  else if String.eqb s "false" || String.eqb s "False" || String.eqb s "FALSE" then JBool false
  else if isQuoted JsString.DQ s || isQuoted "'" s then JStr (unquote s)
  else if isInteger s then
    match JsString.number_of_digits s with Some n => JNum n | None => JStr s end
  else if JsString.startsWith "-" s && isInteger (JsString.sliceFrom 1 s) then
    match JsString.number_of_digits (JsString.sliceFrom 1 s) with
    | Some n => JNum (- n)
    | None => JStr s
    end
  else match timestamp s with
       | Some t => JDate t
       | None => JStr s
       end.

(** The value after [key:]. *)
Definition value (s : string) : JsValue :=
  if JsString.startsWith "[" s && JsString.endsWith "]" s then
    let inner := JsString.trim (unquote s) in
    if JsString.isEmpty inner then JArr []
    else JArr (map (fun item => scalar (JsString.trim item)) (JsString.split "," inner))
  else scalar s.

(** Splits a line at its first colon that is followed by a space or ends
    the line. *)
Fixpoint keyValue (key_rev : string) (s : string) : option (string * string) :=
  match s with
  | EmptyString => None
  | String ":" EmptyString => Some (JsString.rev key_rev, EmptyString)
  | String ":" (String " " r) => Some (JsString.rev key_rev, r)
  | String c r => keyValue (String c key_rev) r
  end.

(** Loads the lines of a flat mapping into [acc]. *)
Fixpoint loadMapping (ls : list string) (acc : Js.object) : result Js.object :=
  match ls with
  | [] => Ok acc
  | l :: rest =>
      if JsString.isBlank l then loadMapping rest acc
      else match keyValue EmptyString l with
           | None => Throw (YAMLException "can not read a block mapping entry")
           | Some (k, v) =>
               let k := JsString.trim k in
               if Js.has acc k then Throw (YAMLException "duplicated mapping key")
               else loadMapping rest (acc ++ [(k, value (JsString.trim v))])%list
           end
  end.

(** [yaml.load(text) || {}], read for its properties: a document with no
    [key: value] line is a bare scalar (or empty) and has no attribute. *)
Definition load (yaml : string) : result Js.object :=
  let ls := JsString.lines yaml in
  if forallb (fun l => match keyValue EmptyString l with None => true | Some _ => false end) ls
  then Ok []
  else loadMapping ls [].

(** The delimiter a line opens a header with: the line is [---] or
    [= yaml =], possibly before a carriage return. *)
Definition opening (l : string) : option string :=
  let opens d := String.eqb l d || String.eqb l (d ++ String "013"%char EmptyString) in
  if opens "---" then Some "---"
  else if opens "= yaml =" then Some "= yaml ="
  else None.

(** A line that closes the header opened with [d]: [d] or [...], then
    white space. *)
Definition isClosing (d l : string) : bool :=
  let t := JsString.trimEnd l in String.eqb t d || String.eqb t "...".

(** Splits the lines after the opening line at the first closing line. *)
Fixpoint splitAtClosing (d : string) (ls : list string) (header_rev : list string)
  : option (list string * list string) :=
  match ls with
  | [] => None
  | l :: rest =>
      if isClosing d l then Some (List.rev header_rev, rest)
      else splitAtClosing d rest (l :: header_rev)
  end.

(** The first header block of the text: the lines before its opening
    line, the lines of the header, the lines after its closing line. *)
Fixpoint findBlock (ls : list string) (before_rev : list string)
  : option (list string * list string * list string) :=
  match ls with
  | [] => None
  | l :: rest =>
      match match opening l with
            | Some d => splitAtClosing d rest []
            | None => None
            end with
      | Some (header, afterClosing) => Some (List.rev before_rev, header, afterClosing)
      | None => findBlock rest (l :: before_rev)
      end
  end.

Fixpoint dropBlank (ls : list string) : list string :=
  match ls with
  | l :: rest => if JsString.isBlank l then dropBlank rest else ls
  | [] => []
  end.

Definition noFrontMatter (text : string) : FrontMatterResult :=
  {| attributes := []; body := text |}.

(** The test the package starts with: the text before the first line
    break holds a delimiter. *)
Definition firstLineHoldsDelimiter (text : string) : bool :=
  let first := hd EmptyString (JsString.lines text) in
  JsString.includes "---" first || JsString.includes "= yaml =" first.

(** [fm(text)].  When the first line holds a delimiter, the package
    looks for the first line that is a delimiter and is followed by a
    closing line; the header is what lies between, and the white space after
    the closing line, up to the last line break before the body, goes with
    it. *)
Definition fm (text : string) : result FrontMatterResult :=
  if firstLineHoldsDelimiter text then
    match findBlock (JsString.lines text) [] with
    | None => Ok (noFrontMatter text)
    | Some (before, header, afterClosing) =>
        bind (load (JsString.trim (JsString.unlines header)))
             (fun attrs =>
                let rest := JsString.unlines (dropBlank afterClosing) in
                Ok {| attributes := attrs;
                      body := match before with
                              | [] => rest
                              | _ :: _ => JsString.unlines before ++ JsString.nl ++ rest
                              end |})
    end
  else Ok (noFrontMatter text).

End FrontMatter.

(** ** JSON documents *)

Module Json.

Inductive t : Type :=
| Null
| Bool (b : bool)
| Num (n : Z)
| Str (s : string)
| Arr (items : list t)
| Obj (fields : list (string * t)).

(** [v.key] on a parsed document: [None] is [undefined]; reading a
    property of [null] throws. *)
Fixpoint field (fields : list (string * t)) (key : string) : option t :=
  match fields with
  | [] => None
  | (k, v) :: rest => if String.eqb k key then Some v else field rest key
  end.

Definition prop (v : t) (key : string) : result (option t) :=
  match v with
  | Null => Throw (TypeError ("Cannot read properties of null (reading '" ++ key ++ "')"))
  | Obj fields => Ok (field fields key)
  | _ => Ok None
  end.

(** The document [JSON.stringify] makes of a value: a [Date] becomes its
    ISO text, [undefined] inside an array becomes [null]. *)
Fixpoint ofValue (v : JsValue) : option t :=
  match v with
  | JUndefined => None
  | JNull => Some Null
  | JBool b => Some (Bool b)
  | JNum n => Some (Num n)
  | JStr s => Some (Str s)
  | JDate d => Some (Str (JsDate.toISOString d))
  | JArr l => Some (Arr (map (fun x => match ofValue x with Some j => j | None => Null end) l))
  end.

(** A property whose value is [undefined] is left out of an object. *)
Definition property (key : string) (v : JsValue) : list (string * t) :=
  match ofValue v with
  | Some j => [(key, j)]
  | None => []
  end.

(** The text of a string literal. *)
Fixpoint escape (s : string) : string :=
  match s with
  | EmptyString => EmptyString
  | String c r =>
      let n := nat_of_ascii c in
      (if (n =? 34)%nat then String "\" JsString.dq
       else if (n =? 92)%nat then "\\"
       else if (n =? 10)%nat then "\n"
       else if (n =? 13)%nat then "\r"
       else if (n =? 9)%nat then "\t"
       else if (n =? 8)%nat then "\b"
       else if (n =? 12)%nat then "\f"
       else if (n <? 32)%nat then
         "\u00" ++ String (if (n <? 16)%nat then "0" else "1")
                     (String (ascii_of_nat (let d := (n mod 16)%nat in
                                            if (d <? 10)%nat then d + 48 else d + 87)) EmptyString)
       else String c EmptyString) ++ escape r
  end.

Definition quote (s : string) : string := JsString.dq ++ escape s ++ JsString.dq.

Fixpoint join (sep : string) (ls : list string) : string :=
  match ls with
  | [] => EmptyString
  | [l] => l
  | l :: rest => l ++ sep ++ join sep rest
  end.

(** [JSON.stringify(v, null, 2)] at the given indentation. *)
Fixpoint text (indent : string) (v : t) : string :=
  let inner := indent ++ "  " in
  match v with
  | Null => "null"
  | Bool true => "true"
  | Bool false => "false"
  | Num n => JsString.of_Z n
  | Str s => quote s
  | Arr [] => "[]"
  | Arr items =>
      "[" ++ JsString.nl ++ inner
        ++ join ("," ++ JsString.nl ++ inner) (map (text inner) items)
        ++ JsString.nl ++ indent ++ "]"
  | Obj [] => "{}"
  | Obj fields =>
      "{" ++ JsString.nl ++ inner
        ++ join ("," ++ JsString.nl ++ inner)
             (map (fun kv => quote (fst kv) ++ ": " ++ text inner (snd kv)) fields)
        ++ JsString.nl ++ indent ++ "}"
  end.

Definition stringify (v : t) : string := text EmptyString v.

End Json.

(** ** [Array.prototype.sort]

    The comparator returns a number; [NaN] ([None]) counts as [+0].  The
    standard requires a stable sort and leaves the algorithm to the engine;
    the model is the stable insertion sort, which is what every engine
    must produce when the comparator is consistent. *)

Section ArraySort.
Context {A : Type}.
Variable comparefn : A -> A -> option Z.

Definition SortCompare (x y : A) : Z :=
  match comparefn x y with
  | Some v => v
  | None => 0
  end.

(** [x] goes before the first element it does not have to follow. *)
Fixpoint insert (x : A) (l : list A) : list A :=
  match l with
  | [] => [x]
  | y :: rest => if 0 <? SortCompare x y then y :: insert x rest else x :: y :: rest
  end.

Definition sort (l : list A) : list A := fold_right insert [] l.
End ArraySort.

(** ** The file system and the Node process *)

Module Node.

(** What a name of the posts directory leads to: a file with its text,
    or something [readFileSync] fails on with the given code (a
    directory: [EISDIR]; a file without permission: [EACCES]). *)
Inductive DirEntry : Type :=
| File (text : string)
| NoFile (code : string).

(** The posts directory: its entries in the order [readdirSync] lists
    them; when the directory cannot be listed, the code of the failure
    ([ENOENT] when it is missing, [EACCES] without permission, [ENOTDIR]);
    and, when nothing can be written into it (the file or the directory is
    read-only, the disk is full), the code of that failure ([EACCES],
    [EROFS], [ENOSPC]). *)
Record FS : Type := {
  unreadable : option string;
  unwritable : option string;
  entries : list (string * DirEntry)
}.

Record State : Type := {
  fs : FS;
  stdout : list string
}.

(** A computation that reads and writes the state and may throw. *)
Definition M (A : Type) : Type := State -> result A * State.

Definition ret {A : Type} (a : A) : M A := fun st => (Ok a, st).

Definition mbind {A B : Type} (m : M A) (k : A -> M B) : M B :=
  fun st =>
    match m st with
    | (Ok a, st') => k a st'
    | (Throw e, st') => (Throw e, st')
    end.

Definition lift {A : Type} (r : result A) : M A := fun st => (r, st).

Notation "x <- m ;; k" := (mbind m (fun x => k))
  (at level 61, m at next level, right associativity).
Notation "m ;;; k" := (mbind m (fun _ => k))
  (at level 61, right associativity).

(** [xs.map(f)] where [f] may throw: the first exception ends the loop. *)
Fixpoint mapM {A B : Type} (f : A -> M B) (xs : list A) : M (list B) :=
  match xs with
  | [] => ret []
  | x :: rest =>
      y <- f x ;;
      ys <- mapM f rest ;;
      ret (y :: ys)
  end.

Fixpoint lookup (name : string) (entries : list (string * DirEntry)) : option DirEntry :=
  match entries with
  | [] => None
  | (n, e) :: rest => if String.eqb n name then Some e else lookup name rest
  end.

(** Replaces the entry of that name, or adds it at the end. *)
Fixpoint store (name : string) (e : DirEntry) (entries : list (string * DirEntry))
  : list (string * DirEntry) :=
  match entries with
  | [] => [(name, e)]
  | (n, old) :: rest =>
      if String.eqb n name then (n, e) :: rest else (n, old) :: store name e rest
  end.

Section Calls.
(** The path of the posts directory. *)
Variable postsDir : string.

(** [fs.readdirSync(postsDir)] *)
Definition readdirSync : M (list string) :=
  fun st =>
    match unreadable (fs st) with
    | Some code => (Throw (SystemError code "scandir" postsDir), st)
    | None => (Ok (map fst (entries (fs st))), st)
    end.

(** [fs.readFileSync(path.join(postsDir, name), 'utf-8')] *)
Definition readFileSync (name : string) : M string :=
  fun st =>
    let path := postsDir ++ "/" ++ name in
    match lookup name (entries (fs st)) with
    | Some (File text) => (Ok text, st)
    | Some (NoFile code) => (Throw (SystemError code "read" path), st)
    | None => (Throw (SystemError "ENOENT" "open" path), st)
    end.

(** [fs.writeFileSync(path.join(postsDir, name), data)]: the file is
    replaced in place; the call throws, and writes nothing, when the name
    is taken by something that is not a file or when nothing can be
    written. *)
Definition writeFileSync (name data : string) : M unit :=
  fun st =>
    let path := postsDir ++ "/" ++ name in
    match unwritable (fs st), lookup name (entries (fs st)) with
    | Some code, _ => (Throw (SystemError code "open" path), st)
    | None, Some (NoFile code) => (Throw (SystemError code "open" path), st)
    | None, _ =>
        (Ok tt,
         {| fs := {| unreadable := unreadable (fs st);
                     unwritable := unwritable (fs st);
                     entries := store name (File data) (entries (fs st)) |};
            stdout := stdout st |})
    end.
End Calls.

(** [console.log(line)] *)
Definition console_log (line : string) : M unit :=
  fun st => (Ok tt, {| fs := fs st; stdout := (stdout st ++ [line])%list |}).

(** How a run of a script ends. *)
Record Process : Type := {
  exitCode : Z;
  out : list string;
  err : list Exn;
  disk : FS
}.

(** [node script]: an exception nobody catches is printed on the error
    stream and the process exits with code 1; otherwise with code 0. *)
Definition run (script : M unit) (disk0 : FS) : Process :=
  match script {| fs := disk0; stdout := [] |} with
  | (Ok _, st) => {| exitCode := 0; out := stdout st; err := []; disk := fs st |}
  | (Throw e, st) => {| exitCode := 1; out := stdout st; err := [e]; disk := fs st |}
  end.

End Node.

(** ** The manifest builder: [scripts/generate-manifest.cjs] *)

Module GenerateManifest.
Import Node.

(** An entry of the manifest. *)
Record Post : Type := {
  title : JsValue;
  date : JsValue;
  slug : JsValue;
  filename : string;
  tags : JsValue
}.

(** The object [JSON.stringify] writes for an entry. *)
Definition toJson (p : Post) : Json.t :=
  Json.Obj (Json.property "title" (title p) ++ Json.property "date" (date p)
            ++ Json.property "slug" (slug p) ++ [("filename", Json.Str (filename p))]
            ++ Json.property "tags" (tags p))%list.

(** [JSON.stringify(posts, null, 2)] is the text of this document. *)
Definition document (posts : list Post) : Json.t := Json.Arr (map toJson posts).

(** [a - b] on numbers that may be [NaN]. *)
Definition minus (a b : option Z) : option Z :=
  match a, b with
  | Some x, Some y => Some (x - y)
  | _, _ => None
  end.

Section Script.
(** The directory above [__dirname]. *)
Variable root : string.
(** [Date.parse] and [Date.prototype.toString] of the engine. *)
Variable Date_parse : string -> option Z.
Variable Date_toString : Z -> string.

Definition postsDir : string := root ++ "/src/posts".
Definition manifestName : string := "manifest.json".
Definition manifestPath : string := postsDir ++ "/" ++ manifestName.

(** [fs.readdirSync(postsDir).filter(f => f.endsWith('.md'))] *)
Definition files : M (list string) :=
  names <- readdirSync postsDir ;;
  ret (filter (JsString.endsWith ".md") names).

(** [new Date(v).getTime()] *)
Definition getTime (v : JsValue) : option Z :=
  match v with
  | JUndefined => None
  | JNull => Some 0
  | JBool b => Some (if b then 1 else 0)
  | JNum n => Some n
  | JStr s => Date_parse s
  | JDate t => Some t
  | JArr _ => Date_parse (Js.ToString Date_toString v)
  end.

(** The first revision, [src/scripts/generate-manifest.cjs]. *)
Definition plain_post (filename : string) (attributes : Js.object) : Post :=
  {| title := Js.or (Js.get attributes "title") (JStr filename);
     date := Js.or (Js.get attributes "date") (JStr EmptyString);
     slug := Js.or (Js.get attributes "slug") (JStr (JsString.replace_md_end filename));
     filename := filename;
     tags := Js.or (Js.get attributes "tags") (JArr []) |}.

(** The callback of [files.map] once the file is read. *)
Definition plain_entry (filename content : string) : result Post :=
  bind (FrontMatter.fm content)
       (fun r => Ok (plain_post filename (FrontMatter.attributes r))).

Definition plain_posts : M (list Post) :=
  fs <- files ;;
  mapM (fun filename =>
          content <- readFileSync postsDir filename ;;
          lift (plain_entry filename content)) fs.

Definition plain_main : M unit :=
  posts <- plain_posts ;;
  writeFileSync postsDir manifestName (Json.stringify (document posts)) ;;;
  console_log ("Manifest written to " ++ manifestPath).

(** The second revision ([src/unnamed/part_001]) normalises the date
    and sorts the entries. *)
Definition dateStr (d : JsValue) : string :=
  match d with
  | JDate t => JsString.slice0 10 (JsDate.toISOString t)
  | _ => if Js.truthy d then JsString.slice0 10 (Js.ToString Date_toString d)
         else EmptyString
  end.

Definition post (filename : string) (attributes : Js.object) : Post :=
  {| title := Js.or (Js.get attributes "title") (JStr filename);
     date := JStr (dateStr (Js.get attributes "date"));
     slug := Js.or (Js.get attributes "slug") (JStr (JsString.replace_md_end filename));
     filename := filename;
     tags := Js.or (Js.get attributes "tags") (JArr []) |}.

(** [(a, b) => new Date(b.date).getTime() - new Date(a.date).getTime()] *)
Definition newestFirst (a b : Post) : option Z :=
  minus (getTime (date b)) (getTime (date a)).

(** The callback of [files.map] once the file is read. *)
Definition entry (filename content : string) : result Post :=
  bind (FrontMatter.fm content)
       (fun r => Ok (post filename (FrontMatter.attributes r))).

Definition unsorted : M (list Post) :=
  fs <- files ;;
  mapM (fun filename =>
          content <- readFileSync postsDir filename ;;
          lift (entry filename content)) fs.

Definition posts : M (list Post) :=
  ps <- unsorted ;;
  ret (sort newestFirst ps).

Definition main : M unit :=
  sorted <- posts ;;
  writeFileSync postsDir manifestName (Json.stringify (document sorted)) ;;;
  console_log ("Manifest written to " ++ manifestPath).
End Script.

End GenerateManifest.

(** A directory to try the builder on: the spec's scenario, [a.md] dated
    2025-01-01, [b.md] dated 2025-06-01, [c.md] without a date, and a file
    that is not a post. *)
Definition scenario : Node.FS :=
  {| Node.unreadable := None;
     Node.unwritable := None;
     Node.entries :=
       [("a.md", Node.File (JsString.unlines ["---"; "title: A"; "date: 2025-01-01"; "---"; "first"]));
        ("b.md", Node.File (JsString.unlines ["---"; "date: 2025-06-01"; "tags: [x, y]"; "---"; "second"]));
        ("c.md", Node.File "no header");
        ("notes.txt", Node.File "skip me")] |}.


(** ** The browser side: fetching *)

Module Http.

(** A response: its status, its body, and what [JSON.parse] makes of the
    body ([res.json()] rejects with that exception when the body is not
    JSON). *)
Record Response : Type := {
  status : Z;
  text : string;
  json : result Json.t
}.

(** How [fetch(url)] settles: it rejects only when no response arrives
    (a network failure); a response with an error status resolves. *)
Inductive Fetch : Type :=
| Rejected (e : Exn)
| Resolved (r : Response).

(** A static file server: what fetching a URL gives. *)
Definition Server : Type := string -> Fetch.

(** The response that serves a JSON document as the builder wrote it. *)
Definition serveJson (doc : Json.t) : Response :=
  {| status := 200; text := Json.stringify doc; json := Ok doc |}.

(** The response that serves a text file. *)
Definition serveText (body : string) : Response :=
  {| status := 200; text := body; json := Throw (SyntaxError "Unexpected token") |}.

(** The response for a file that does not exist. *)
Definition notFound (page : string) : Response :=
  {| status := 404; text := page; json := Throw (SyntaxError "Unexpected token") |}.

End Http.

(** ** The post list: [src/components/BlogList.tsx] *)

Module BlogList.

(** The declared shape of a manifest entry. *)
Record BlogPost : Type := {
  title : string;
  date : string;
  slug : string;
  content : option string;
  filename : string;
  tags : option (list string)
}.

(** The JSON object of an entry; an optional field that is absent is
    left out. *)
Definition toJson (p : BlogPost) : Json.t :=
  Json.Obj ([("title", Json.Str (title p)); ("date", Json.Str (date p)); ("slug", Json.Str (slug p))]
            ++ match content p with Some c => [("content", Json.Str c)] | None => [] end
            ++ [("filename", Json.Str (filename p))]
            ++ match tags p with Some ts => [("tags", Json.Arr (map Json.Str ts))] | None => [] end)%list.

(** [ToBoolean] of a parsed value. *)
Definition truthy (v : option Json.t) : bool :=
  match v with
  | None | Some Json.Null => false
  | Some (Json.Bool b) => b
  | Some (Json.Num n) => negb (n =? 0)
  | Some (Json.Str s) => negb (JsString.isEmpty s)
  | Some (Json.Arr _) | Some (Json.Obj _) => true
  end.

(** [SameValueZero]: primitives by value; two parsed arrays or objects
    are never the same object. *)
Definition sameValueZero (a b : Json.t) : bool :=
  match a, b with
  | Json.Null, Json.Null => true
  | Json.Bool x, Json.Bool y => Bool.eqb x y
  | Json.Num x, Json.Num y => x =? y
  | Json.Str x, Json.Str y => String.eqb x y
  | _, _ => false
  end.

(** [Array.from(new Set(xs))]: the first occurrence of each value. *)
Fixpoint distinct (seen xs : list Json.t) : list Json.t :=
  match xs with
  | [] => []
  | x :: rest =>
      if existsb (sameValueZero x) seen then distinct seen rest
      else x :: distinct (x :: seen) rest
  end.

(** [post.tags || []], spread by [flatMap] when it is an array. *)
Definition tagsOrEmpty (post : Json.t) : result (list Json.t) :=
  bind (Json.prop post "tags")
       (fun ts => if truthy ts
                  then match ts with
                       | Some (Json.Arr l) => Ok l
                       | Some v => Ok [v]
                       | None => Ok []
                       end
                  else Ok []).

Fixpoint flatMapTags (posts : list Json.t) : result (list Json.t) :=
  match posts with
  | [] => Ok []
  | p :: rest =>
      bind (tagsOrEmpty p) (fun ts => bind (flatMapTags rest) (fun more => Ok (ts ++ more)%list))
  end.

Definition notAnArray (method : string) : Exn :=
  TypeError ("posts." ++ method ++ " is not a function").

(** [Array.from(new Set(posts.flatMap(post => post.tags || [])))] *)
Definition allTags (posts : Json.t) : result (list Json.t) :=
  match posts with
  | Json.Arr l => bind (flatMapTags l) (fun ts => Ok (distinct [] ts))
  | _ => Throw (notAnArray "flatMap")
  end.

(** [post.tags?.includes(tag)], read as a condition. *)
Definition hasTag (tag : string) (post : Json.t) : result bool :=
  bind (Json.prop post "tags")
       (fun ts => match ts with
                  | None | Some Json.Null => Ok false
                  | Some (Json.Arr l) => Ok (existsb (sameValueZero (Json.Str tag)) l)
                  | Some (Json.Str s) => Ok (JsString.includes tag s)
                  | Some _ => Throw (TypeError "post.tags?.includes is not a function")
                  end).

(** [xs.filter(p)] where [p] may throw. *)
Fixpoint filterM (p : Json.t -> result bool) (xs : list Json.t) : result (list Json.t) :=
  match xs with
  | [] => Ok []
  | x :: rest =>
      bind (p x) (fun keep => bind (filterM p rest)
                                (fun kept => Ok (if keep then x :: kept else kept)))
  end.

(** [tag ? posts.filter(post => post.tags?.includes(tag)) : posts];
    the route parameter is [None] on [/blog]. *)
Definition filteredPosts (tag : option string) (posts : Json.t) : result Json.t :=
  match tag with
  | Some t =>
      if JsString.isEmpty t then Ok posts
      else match posts with
           | Json.Arr l => bind (filterM (hasTag t) l) (fun kept => Ok (Json.Arr kept))
           | _ => Throw (notAnArray "filter")
           end
  | None => Ok posts
  end.

(** What a render lists: the tag strip and the posts; an exception
    leaves nothing rendered. *)
Record View : Type := {
  strip : list Json.t;
  listed : list Json.t
}.

Definition render (tag : option string) (posts : Json.t) : result View :=
  bind (allTags posts)
       (fun ts => bind (filteredPosts tag posts)
                    (fun shown => match shown with
                                  | Json.Arr l => Ok {| strip := ts; listed := l |}
                                  | _ => Throw (notAnArray "map")
                                  end)).

(** [loadLocalPosts]: the state [posts] after the fetch of the manifest
    settled; a rejection is not caught and sets nothing. *)
Definition loadLocalPosts (f : Http.Fetch) (posts : Json.t) : Json.t :=
  match f with
  | Http.Rejected _ => posts
  | Http.Resolved res =>
      match Http.json res with
      | Ok manifest => manifest
      | Throw _ => posts
      end
  end.

(** [useState<BlogPost[]>([])] *)
Definition initialPosts : Json.t := Json.Arr [].

(** [listPosts]: the page after the manifest was fetched. *)
Definition listPosts (tag : option string) (f : Http.Fetch) : result View :=
  render tag (loadLocalPosts f initialPosts).

End BlogList.

(** ** The home page: [src/App.tsx] *)

Module App.

(** [String(v)] of a parsed value. *)
Fixpoint toString (v : Json.t) : string :=
  match v with
  | Json.Null => "null"
  | Json.Bool true => "true"
  | Json.Bool false => "false"
  | Json.Num n => JsString.of_Z n
  | Json.Str s => s
  | Json.Arr l =>
      Json.join "," (map (fun x => match x with
                                   | Json.Null => EmptyString
                                   | _ => toString x
                                   end) l)
  | Json.Obj _ => "[object Object]"
  end.

Section Engine.
(** [Date.parse] of the browser. *)
Variable Date_parse : string -> option Z.

(** [new Date(v).getTime()] for a property value. *)
Definition getTime (v : option Json.t) : option Z :=
  match v with
  | None => None
  | Some Json.Null => Some 0
  | Some (Json.Bool b) => Some (if b then 1 else 0)
  | Some (Json.Num n) => Some n
  | Some (Json.Str s) => Date_parse s
  | Some (Json.Arr l) => Date_parse (toString (Json.Arr l))
  | Some (Json.Obj _) => Date_parse "[object Object]"
  end.

(** [x.date], for an element the comparator can read. *)
Definition dateOf (x : Json.t) : option Json.t :=
  match x with
  | Json.Obj fields => Json.field fields "date"
  | _ => None
  end.

(** [(a, b) => new Date(b.date).getTime() - new Date(a.date).getTime()] *)
Definition newestFirst (a b : Json.t) : option Z :=
  GenerateManifest.minus (getTime (dateOf b)) (getTime (dateOf a)).

Definition isNull (x : Json.t) : bool :=
  match x with Json.Null => true | _ => false end.

(** [xs.sort(newestFirst)]: with two elements or more every element is
    compared, and the comparator throws on [null]. *)
Definition sortPosts (xs : list Json.t) : result (list Json.t) :=
  if (2 <=? List.length xs)%nat && existsb isNull xs
  then Throw (TypeError "Cannot read properties of null (reading 'date')")
  else Ok (sort newestFirst xs).

(** [manifest.posts.sort(...).slice(0, 3)] *)
Definition recent (manifest : Json.t) : result (list Json.t) :=
  bind (Json.prop manifest "posts")
       (fun posts =>
          match posts with
          | None => Throw (TypeError "Cannot read properties of undefined (reading 'sort')")
          | Some Json.Null => Throw (TypeError "Cannot read properties of null (reading 'sort')")
          | Some (Json.Arr l) => bind (sortPosts l) (fun sorted => Ok (firstn 3 sorted))
          | Some _ => Throw (TypeError "manifest.posts.sort is not a function")
          end).

Record State : Type := {
  recentPosts : list Json.t;
  consoleErrors : list Exn
}.

(** [useState<BlogMeta[]>([])] *)
Definition initial : State := {| recentPosts := []; consoleErrors := [] |}.

(** [fetchPosts]: every failure is caught and logged, and leaves the
    state as it was. *)
Definition fetchPosts (f : Http.Fetch) (st : State) : State :=
  let failed e :=
    {| recentPosts := recentPosts st; consoleErrors := (consoleErrors st ++ [e])%list |} in
  match f with
  | Http.Rejected e => failed e
  | Http.Resolved res =>
      match bind (Http.json res) recent with
      | Ok posts => {| recentPosts := posts; consoleErrors := consoleErrors st |}
      | Throw e => failed e
      end
  end.

(** The section of latest articles is rendered only for a non-empty
    list. *)
Definition latestArticles (st : State) : list Json.t := recentPosts st.
End Engine.

End App.

(** ** The post view: [BlogPost.tsx] ([src/unnamed/part_000]) *)

Module BlogPost.

(** The state [post]; the fields hold what the front-matter gave. *)
Record Post : Type := {
  title : JsValue;
  date : JsValue;
  content : string
}.

Section Assets.
(** [resolveAsset] of [../lib/resolveAsset], which prefixes the base
    path; the earlier revision writes the prefix out. *)
Variable resolveAsset : string -> string.

Definition url (slug : string) : string :=
  resolveAsset ("src/posts/" ++ slug ++ ".md").

(** The continuation of [fetchPost] once the fetch settled: the post
    it passes to [setPost], or the rejection of its promise, which
    nobody handles. *)
Definition fetchPost (f : Http.Fetch) : result Post :=
  match f with
  | Http.Rejected e => Throw e
  | Http.Resolved res =>
      let md := Http.text res in
      bind (FrontMatter.fm md)
           (fun r => Ok {| title := Js.get (FrontMatter.attributes r) "title";
                           date := Js.get (FrontMatter.attributes r) "date";
                           content := FrontMatter.body r |})
  end.

(** The component: [post] starts as [null]; the effect starts one
    fetch for the slug. *)
Record State : Type := {
  post : option Post;
  pending : bool
}.

Definition mount : State := {| post := None; pending := true |}.

Inductive Event : Type :=
| Settle (f : Http.Fetch)
| Render.

(** The fetch in flight settles once; rendering changes nothing. *)
Definition step (st : State) (e : Event) : State :=
  match e with
  | Render => st
  | Settle f =>
      if pending st then
        match fetchPost f with
        | Ok p => {| post := Some p; pending := false |}
        | Throw _ => {| post := post st; pending := false |}
        end
      else st
  end.

Definition run (st : State) (events : list Event) : State := fold_left step events st.

Inductive View : Type :=
| Loading
| Article (p : Post).

(** [if (!post) return <div>Loading...</div>] *)
Definition view (st : State) : View :=
  match post st with
  | None => Loading
  | Some p => Article p
  end.

(** [loadPost(slug)]: the post the view shows for a slug served by
    [server], if any. *)
Definition loadPost (server : Http.Server) (slug : string) : option Post :=
  post (step mount (Settle (server (url slug)))).
End Assets.

(** The prefix of the earlier revision. *)
Definition basePath (asset : string) : string := "/the-orchestration-layer/" ++ asset.

(** *** The [code] component of [ReactMarkdown] *)

(** The longest run of word characters at the start. *)
Fixpoint word (s : string) : string :=
  match s with
  | String c r => if JsString.isWord c then String c (word r) else EmptyString
  | EmptyString => EmptyString
  end.

(** [/language-(\w+)/.exec(s)]: the group of the leftmost match. *)
Fixpoint execLanguage (s : string) : option string :=
  let here :=
    if JsString.startsWith "language-" s
    then match word (JsString.sliceFrom 9 s) with
         | EmptyString => None
         | w => Some w
         end
    else None in
  match here with
  | Some w => Some w
  | None =>
      match s with
      | EmptyString => None
      | String _ r => execLanguage r
      end
  end.

Inductive Element : Type :=
| SyntaxHighlighter (language : string) (PreTag : string) (children : string)
| Code (className : option string) (children : string).

(** [className || ''] *)
Definition orEmpty (className : option string) : string :=
  match className with
  | Some c => c
  | None => EmptyString
  end.

Definition code (className : option string) (children : string) : Element :=
  match execLanguage (orEmpty className) with
  | Some language => SyntaxHighlighter language "div" (JsString.replace_nl_end children)
  | None => Code className children
  end.

End BlogPost.

(** ** Vocabulary of the properties *)

(** [xs.map(f)] for a callback that may throw, without state. *)
Fixpoint mapR {A B : Type} (f : A -> result B) (xs : list A) : result (list B) :=
  match xs with
  | [] => Ok []
  | x :: rest => bind (f x) (fun y => bind (mapR f rest) (fun ys => Ok (y :: ys)))
  end.

Module Claims.

(** What reading and converting the file of that name gives. *)
Definition load (convert : string -> string -> result GenerateManifest.Post)
    (postsDir : string) (entries : list (string * Node.DirEntry)) (name : string)
  : result GenerateManifest.Post :=
  match Node.lookup name entries with
  | Some (Node.File text) => convert name text
  | Some (Node.NoFile code) => Throw (SystemError code "read" (postsDir ++ "/" ++ name))
  | None => Throw (SystemError "ENOENT" "open" (postsDir ++ "/" ++ name))
  end.

(** The names of the directory that end in [.md], in listing order. *)
Definition markdownNames (disk : Node.FS) : list string :=
  filter (JsString.endsWith ".md") (map fst (Node.entries disk)).

(** What listing the directory and keeping the markdown names gives. *)
Definition listing (root : string) (disk : Node.FS) : result (list string) :=
  match Node.unreadable disk with
  | Some code => Throw (SystemError code "scandir" (GenerateManifest.postsDir root))
  | None => Ok (markdownNames disk)
  end.

(** How a run that got as far as [r] ends: with the exception, with the
    failure of the write, or with the manifest written. *)
Definition ending (root : string) (disk : Node.FS) (r : result (list GenerateManifest.Post))
  : Node.Process :=
  match r with
  | Throw e => {| Node.exitCode := 1; Node.out := []; Node.err := [e]; Node.disk := disk |}
  | Ok ps =>
      match Node.unwritable disk,
            Node.lookup GenerateManifest.manifestName (Node.entries disk) with
      | Some code, _ | None, Some (Node.NoFile code) =>
          {| Node.exitCode := 1; Node.out := [];
             Node.err := [SystemError code "open"
                            (GenerateManifest.postsDir root ++ "/" ++ GenerateManifest.manifestName)];
             Node.disk := disk |}
      | None, _ =>
          {| Node.exitCode := 0;
             Node.out := ["Manifest written to " ++ GenerateManifest.manifestPath root];
             Node.err := [];
             Node.disk :=
               {| Node.unreadable := Node.unreadable disk;
                  Node.unwritable := Node.unwritable disk;
                  Node.entries :=
                    Node.store GenerateManifest.manifestName
                      (Node.File (Json.stringify (GenerateManifest.document ps)))
                      (Node.entries disk) |} |}
      end
  end.


(** [a >= b] on numbers that may be [NaN]: false as soon as one is. *)
Definition geq (a b : option Z) : bool :=
  match a, b with
  | Some x, Some y => y <=? x
  | _, _ => false
  end.

(** A list whose keys go down, or stay, from each element to the next. *)
Inductive Descending {A : Type} (key : A -> option Z) : list A -> Prop :=
| desc_nil : Descending key []
| desc_one x : Descending key [x]
| desc_cons x y l :
    geq (key x) (key y) = true -> Descending key (y :: l) -> Descending key (x :: y :: l).

(** The parsed date of every entry is at least that of the next. *)
Definition sortedByDateDescending (Date_parse : string -> option Z)
    (Date_toString : Z -> string) (ps : list GenerateManifest.Post) : Prop :=
  forall i a b,
    nth_error ps i = Some a -> nth_error ps (S i) = Some b ->
    geq (GenerateManifest.getTime Date_parse Date_toString (GenerateManifest.date a))
        (GenerateManifest.getTime Date_parse Date_toString (GenerateManifest.date b)) = true.

(** Every entry has a date that parses. *)
Definition allDatesValid (Date_parse : string -> option Z)
    (Date_toString : Z -> string) (ps : list GenerateManifest.Post) : Prop :=
  Forall (fun p => GenerateManifest.getTime Date_parse Date_toString (GenerateManifest.date p)
                   <> None) ps.

(** The entry carries the tag. *)
Definition Carries (tag : string) (p : BlogList.BlogPost) : Prop :=
  exists ts, BlogList.tags p = Some ts /\ In tag ts.

Definition carries (tag : string) (p : BlogList.BlogPost) : bool :=
  match BlogList.tags p with
  | Some ts => existsb (String.eqb tag) ts
  | None => false
  end.

(** The number of entries that carry the tag. *)
Fixpoint count (tag : string) (ps : list BlogList.BlogPost) : nat :=
  match ps with
  | [] => 0%nat
  | p :: rest => ((if carries tag p then 1 else 0) + count tag rest)%nat
  end.

(** [kept] is [ps] with some entries left out, the others in place. *)
Inductive Subsequence {A : Type} : list A -> list A -> Prop :=
| sub_nil : Subsequence [] []
| sub_keep x kept ps : Subsequence kept ps -> Subsequence (x :: kept) (x :: ps)
| sub_drop x kept ps : Subsequence kept ps -> Subsequence kept (x :: ps).

(** The manifest file of typed entries. *)
Definition manifest (ps : list BlogList.BlogPost) : Json.t :=
  Json.Arr (map BlogList.toJson ps).

(** A post file: the header with its three declarations, then the
    body. *)
Definition postFile (title date slug body : string) : string :=
  JsString.unlines ["---"; "title: " ++ title; "date: " ++ date; "slug: " ++ slug; "---"; body].

(** A text between double quotes. *)
Definition quoted (s : string) : string := JsString.dq ++ s ++ JsString.dq.

(** The class name holds [language-] followed by a word character. *)
Definition HasLanguage (className : string) : Prop :=
  exists before c rest,
    className = before ++ "language-" ++ String c rest /\ JsString.isWord c = true.

(** [w] is a word that ends where [rest] begins. *)
Definition WordBefore (w rest : string) : Prop :=
  w <> EmptyString /\ JsString.forallb JsString.isWord w = true
  /\ match rest with
     | EmptyString => True
     | String c _ => JsString.isWord c = false
     end.

End Claims.

(** ** What the pages show of a date, and the theme *)

Module Display.

(** [String(text).split(' ')[i]], turned into text by [+]: a part that
    does not exist is [undefined]. *)
Definition part (i : nat) (text : string) : string :=
  match nth_error (JsString.split " " text) i with
  | Some t => t
  | None => "undefined"
  end.

(** [String(post.date)] for an entry of the parsed manifest. *)
Definition dateText (post : Json.t) : string :=
  match App.dateOf post with
  | Some v => App.toString v
  | None => "undefined"
  end.

(** The date under a title of the list, [BlogList.tsx]:
    [String(post.date).split(' ')[0]]. *)
Definition listDate (post : Json.t) : string := part 0 (dateText post).

Section PostHeader.
(** [Date.prototype.toString] of the browser. *)
Variable Date_toString : Z -> string.

(** The date line of the post view, [BlogPost.tsx]: the first four parts
    of [String(post.date)], joined by spaces. *)
Definition dateLine (p : BlogPost.Post) : string :=
  let text := Js.ToString Date_toString (BlogPost.date p) in
  part 0 text ++ " " ++ part 1 text ++ " " ++ part 2 text ++ " " ++ part 3 text.
End PostHeader.

(** [toggleTheme] of [App.tsx]: [t === 'dark' ? 'paper' : 'dark']. *)
Definition toggleTheme (t : string) : string :=
  if String.eqb t "dark" then "paper" else "dark".

(** [useState('paper')] *)
Definition initialTheme : string := "paper".

(** The theme after a number of clicks on the button. *)
Fixpoint clicks (n : nat) (t : string) : string :=
  match n with
  | O => t
  | S k => clicks k (toggleTheme t)
  end.

(** No character of the text is a space. *)
Definition noSpace (s : string) : bool :=
  JsString.forallb (fun c => negb (Ascii.eqb c " ")) s.

End Display.

Module Extra.

(** The names of the fields of a JSON object, in order. *)
Definition keys (j : Json.t) : list string :=
  match j with
  | Json.Obj fields => map fst fields
  | _ => []
  end.

(** The tags of the entries of the declared shape, in order of
    appearance. *)
Definition tagsOf (ps : list BlogList.BlogPost) : list string :=
  flat_map (fun p => match BlogList.tags p with Some ts => ts | None => [] end) ps.

(** The entries the list page shows for a route parameter. *)
Definition shown (tag : option string) (ps : list BlogList.BlogPost) : list BlogList.BlogPost :=
  match tag with
  | Some t => if JsString.isEmpty t then ps else filter (Claims.carries t) ps
  | None => ps
  end.

(** The key of the element is the number [k]. *)
Definition keyed {A : Type} (key : A -> option Z) (k : Z) (x : A) : bool :=
  match key x with
  | Some t => t =? k
  | None => false
  end.

(** The entry's date parses to the time value [k]. *)
Definition dated (Date_parse : string -> option Z) (Date_toString : Z -> string) (k : Z)
    (p : GenerateManifest.Post) : bool :=
  keyed (fun q => GenerateManifest.getTime Date_parse Date_toString (GenerateManifest.date q)) k p.

(** The time value the home page sorts an entry by. *)
Definition key (Date_parse : string -> option Z) (x : Json.t) : option Z :=
  App.getTime Date_parse (App.dateOf x).

(** Every markdown name of the directory is a file whose header loads. *)
Definition allLoad (convert : string -> string -> result GenerateManifest.Post)
    (root : string) (disk : Node.FS) : Prop :=
  Forall (fun n => exists p,
              Claims.load convert (GenerateManifest.postsDir root) (Node.entries disk) n = Ok p)
         (Claims.markdownNames disk).

(** The manifest can be written: nothing forbids writing, and its name is
    not taken by something that is not a file. *)
Definition writable (disk : Node.FS) : Prop :=
  Node.unwritable disk = None
  /\ forall code, Node.lookup GenerateManifest.manifestName (Node.entries disk)
                  <> Some (Node.NoFile code).

End Extra.

(** * Properties *)

(** ** Checks of the model on concrete inputs *)

Example slice0_ex : JsString.slice0 10 "2025-01-02T00:00:00.000Z" = "2025-01-02".
Proof. reflexivity. Qed.

Example endsWith_ex : JsString.endsWith ".md" "a.md" = true /\ JsString.endsWith ".md" "a.mdx" = false
                      /\ JsString.endsWith ".md" "md" = false.
Proof. repeat split. Qed.

Example replace_md_ex : JsString.replace_md_end "a.md.md" = "a.md".
Proof. reflexivity. Qed.

Example lines_ex : JsString.lines (JsString.unlines ["---"; "title: X"; "---"; "Hello"])
                   = ["---"; "title: X"; "---"; "Hello"].
Proof. reflexivity. Qed.

Example of_Z_ex : JsString.of_Z 2025 = "2025" /\ JsString.of_Z 0 = "0" /\ JsString.of_Z (-17) = "-17".
Proof. repeat split. Qed.

Example trim_ex : JsString.trim "  a b  " = "a b".
Proof. reflexivity. Qed.

Example toISOString_ex :
  JsDate.toISOString (JsDate.UTC 2025 11 28) = "2025-12-28T00:00:00.000Z"
  /\ JsDate.toISOString 0 = "1970-01-01T00:00:00.000Z"
  /\ JsDate.toISOString (-1) = "1969-12-31T23:59:59.999Z"
  /\ JsDate.toISOString (JsDate.UTC 2024 1 29 + 3723004) = "2024-02-29T01:02:03.004Z"
  /\ JsDate.toISOString (JsDate.UTC 9999 11 32) = "+010000-01-01T00:00:00.000Z"
  /\ JsDate.toISOString (JsDate.UTC 2000 11 31) = "2000-12-31T00:00:00.000Z"
  /\ JsDate.toISOString (JsDate.UTC 1900 2 1) = "1900-03-01T00:00:00.000Z".
Proof. repeat split; vm_compute; reflexivity. Qed.

Example toStringUTC_ex :
  JsDate.toStringUTC (JsDate.UTC 2025 11 28) = "Sun Dec 28 2025 00:00:00 GMT+0000 (Coordinated Universal Time)".
Proof. vm_compute. reflexivity. Qed.

Example parse_ex :
  JsDate.parse "2025-01-02" = Some 1735776000000
  /\ JsDate.parse "1970-01-01" = Some 0
  /\ JsDate.parse "2025-02-30" = JsDate.parse "2025-03-02"
  /\ JsDate.parse "2025-13-01" = None
  /\ JsDate.parse "not a date" = None
  /\ JsDate.parse EmptyString = None.
Proof. repeat split; vm_compute; reflexivity. Qed.

Example fm_post_ex :
  FrontMatter.fm (JsString.unlines
    ["---"; "title: Markdown with React & Vite"; "date: 2025-10-27";
     "slug: markdown-react-vite"; "tags: [react, typescript]"; "---"; EmptyString;
     "# Building a Modern Markdown Blog"; EmptyString; "text"])
  = Ok {| FrontMatter.attributes :=
            [("title", JStr "Markdown with React & Vite");
             ("date", JDate 1761523200000);
             ("slug", JStr "markdown-react-vite");
             ("tags", JArr [JStr "react"; JStr "typescript"])];
          FrontMatter.body := JsString.unlines ["# Building a Modern Markdown Blog"; EmptyString; "text"] |}.
Proof. vm_compute. reflexivity. Qed.

Example fm_quoted_ex :
  FrontMatter.fm (JsString.unlines
    ["---"; "title: " ++ JsString.dq ++ "AuthPilot: a story" ++ JsString.dq; "n: 42"; "e:"; "---"])
  = Ok {| FrontMatter.attributes := [("title", JStr "AuthPilot: a story"); ("n", JNum 42); ("e", JNull)];
          FrontMatter.body := EmptyString |}.
Proof. vm_compute. reflexivity. Qed.

Example fm_none_ex :
  FrontMatter.fm "# Just a heading" = Ok (FrontMatter.noFrontMatter "# Just a heading")
  /\ FrontMatter.fm (JsString.unlines ["---"; "title: X"]) = Ok (FrontMatter.noFrontMatter (JsString.unlines ["---"; "title: X"])).
Proof. split; vm_compute; reflexivity. Qed.

Example fm_crlf_ex :
  let cr := String "013"%char EmptyString in
  FrontMatter.fm (JsString.unlines ["---" ++ cr; "title: X" ++ cr; "---" ++ cr; "Hello" ++ cr])
  = Ok {| FrontMatter.attributes := [("title", JStr "X")]; FrontMatter.body := "Hello" ++ cr |}.
Proof. vm_compute. reflexivity. Qed.

Example fm_throw_ex :
  FrontMatter.fm (JsString.unlines ["---"; "a: 1"; "a: 2"; "---"; "x"])
  = Throw (YAMLException "duplicated mapping key").
Proof. vm_compute. reflexivity. Qed.

Example stringify_ex :
  Json.stringify (Json.Arr [Json.Obj [("title", Json.Str "X"); ("tags", Json.Arr [])]])
  = JsString.unlines
      ["[";
       "  {";
       "    " ++ Json.quote "title" ++ ": " ++ Json.quote "X" ++ ",";
       "    " ++ Json.quote "tags" ++ ": []";
       "  }";
       "]"].
Proof. vm_compute. reflexivity. Qed.

Example scenario_posts :
  fst (GenerateManifest.posts "/repo" JsDate.parse JsDate.toStringUTC {| Node.fs := scenario; Node.stdout := [] |})
  = Ok [ {| GenerateManifest.title := JStr "b.md"; GenerateManifest.date := JStr "2025-06-01";
            GenerateManifest.slug := JStr "b"; GenerateManifest.filename := "b.md";
            GenerateManifest.tags := JArr [JStr "x"; JStr "y"] |};
         {| GenerateManifest.title := JStr "A"; GenerateManifest.date := JStr "2025-01-01";
            GenerateManifest.slug := JStr "a"; GenerateManifest.filename := "a.md";
            GenerateManifest.tags := JArr [] |};
         {| GenerateManifest.title := JStr "c.md"; GenerateManifest.date := JStr EmptyString;
            GenerateManifest.slug := JStr "c"; GenerateManifest.filename := "c.md";
            GenerateManifest.tags := JArr [] |} ].
Proof. vm_compute. reflexivity. Qed.

(** The first revision keeps the listing order and writes a [Date] as
    its full ISO text. *)
Example plain_posts_scenario :
  exists ps,
    fst (GenerateManifest.plain_posts "/repo" {| Node.fs := scenario; Node.stdout := [] |}) = Ok ps
    /\ map GenerateManifest.filename ps = ["a.md"; "b.md"; "c.md"]
    /\ map GenerateManifest.date ps
       = [JDate (JsDate.UTC 2025 0 1); JDate (JsDate.UTC 2025 5 1); JStr EmptyString]
    /\ Json.ofValue (JDate (JsDate.UTC 2025 0 1)) = Some (Json.Str "2025-01-01T00:00:00.000Z").
Proof. eexists. repeat split; vm_compute; reflexivity. Qed.

(** ** Calendar arithmetic *)

Section Calendar.
Import JsDate.

(** The year found is the year of the day. *)
Lemma YearFromDay_bounds (d : Z) :
  DayFromYear (YearFromDay d) <= d < DayFromYear (YearFromDay d + 1).
Proof.
  unfold YearFromDay.
  set (y := 1970 + 400 * d / 146097).
  assert (Hlo : DayFromYear (y - 1) <= d)
    by (subst y; unfold DayFromYear; Z.div_mod_to_equations; lia).
  assert (Hhi : d < DayFromYear (y + 2))
    by (subst y; unfold DayFromYear; Z.div_mod_to_equations; lia).
  destruct (DayFromYear (y + 1) <=? d) eqn:E1.
  - apply Z.leb_le in E1. replace (y + 1 + 1) with (y + 2) by lia. lia.
  - apply Z.leb_gt in E1.
    destruct (DayFromYear y <=? d) eqn:E2.
    + apply Z.leb_le in E2. lia.
    + apply Z.leb_gt in E2. replace (y - 1 + 1) with y by lia. lia.
Qed.

Lemma DayFromYear_next (y : Z) :
  DayFromYear (y + 1) = DayFromYear y + DaysInYear y.
Proof.
  unfold DayFromYear, DaysInYear, isLeap.
  destruct (y mod 4 =? 0) eqn:E4; destruct (y mod 100 =? 0) eqn:E100;
    destruct (y mod 400 =? 0) eqn:E400; cbn [andb orb negb];
    rewrite ?Z.eqb_eq, ?Z.eqb_neq in *; Z.div_mod_to_equations; lia.
Qed.

Lemma DayWithinYear_bounds (t : Z) :
  0 <= DayWithinYear t < 365 + InLeapYear t.
Proof.
  unfold DayWithinYear, InLeapYear, YearFromTime.
  pose proof (YearFromDay_bounds (Day t)) as H.
  rewrite DayFromYear_next in H. unfold DaysInYear in H.
  destruct (isLeap (YearFromDay (Day t))); lia.
Qed.

(** The month and the day of the month are a calendar date, and
    [MakeDay] takes it back to the day. *)
Lemma civil_date (t : Z) :
  0 <= MonthFromTime t <= 11
  /\ 1 <= DateFromTime t <= 31
  /\ MakeDay (YearFromTime t) (MonthFromTime t) (DateFromTime t) = Day t.
Proof.
  pose proof (DayWithinYear_bounds t) as Hd.
  unfold MakeDay, DateFromTime, MonthFromTime.
  assert (Hl : InLeapYear t = if isLeap (YearFromTime t) then 1 else 0) by reflexivity.
  assert (Hy : DayFromYear (YearFromTime t) = Day t - DayWithinYear t)
    by (unfold DayWithinYear; lia).
  set (d := DayWithinYear t) in *. set (l := InLeapYear t) in *.
  set (y := YearFromTime t) in *.
  repeat match goal with
         | |- context [if ?a <? ?b then _ else _] =>
             destruct (Z.ltb_spec a b)
         end;
    cbn [Z.div Z.modulo Z.div_eucl Z.pos_div_eucl DaysBeforeMonth];
    change (y + 0) with (y + 0); rewrite ?Z.add_0_r;
    unfold DaysBeforeMonth; cbn; rewrite ?Z.add_0_r, Hy;
    destruct (isLeap y); lia.
Qed.
End Calendar.

(** ** Decimal digits *)

Lemma length_app (s1 s2 : string) :
  String.length (s1 ++ s2) = (String.length s1 + String.length s2)%nat.
Proof.
  induction s1 as [| c s1 IH]; cbn; [reflexivity | now rewrite IH].
Qed.

Lemma digit_of_char_of_digit (z : Z) :
  JsString.digit_of_char (JsString.char_of_digit z) = Some (z mod 10).
Proof.
  unfold JsString.char_of_digit.
  pose proof (Z.mod_pos_bound z 10 ltac:(lia)) as H.
  set (k := z mod 10) in *.
  assert (Hk : k = 0 \/ k = 1 \/ k = 2 \/ k = 3 \/ k = 4 \/ k = 5 \/ k = 6 \/ k = 7
               \/ k = 8 \/ k = 9) by lia.
  repeat (destruct Hk as [Hk | Hk]; [rewrite Hk; reflexivity |]).
  rewrite Hk. reflexivity.
Qed.

Lemma fixed_digits_length (n : nat) (z : Z) :
  String.length (JsString.fixed_digits n z) = n.
Proof.
  revert z. induction n as [| n IH]; intro z; cbn [JsString.fixed_digits].
  - reflexivity.
  - rewrite length_app, IH. cbn. lia.
Qed.

Lemma digits_from_append (s : string) (c : ascii) (acc : Z) :
  JsString.digits_from acc (s ++ String c EmptyString)
  = match JsString.digits_from acc s, JsString.digit_of_char c with
    | Some v, Some d => Some (10 * v + d)
    | _, _ => None
    end.
Proof.
  revert acc. induction s as [| a s IH]; intro acc; cbn [append JsString.digits_from].
  - destruct (JsString.digit_of_char c); reflexivity.
  - destruct (JsString.digit_of_char a); [apply IH | reflexivity].
Qed.

(** Reading back [n] digits gives the number below [10^n]. *)
Lemma digits_from_fixed_digits (n : nat) (z : Z) :
  0 <= z ->
  JsString.digits_from 0 (JsString.fixed_digits n z) = Some (z mod 10 ^ Z.of_nat n).
Proof.
  revert z. induction n as [| n IH]; intros z Hz.
  - cbn. rewrite Z.mod_1_r. reflexivity.
  - cbn [JsString.fixed_digits]. rewrite digits_from_append, IH, digit_of_char_of_digit
      by (apply Z.div_pos; lia).
    f_equal. rewrite Nat2Z.inj_succ, Z.pow_succ_r by lia.
    rewrite Z.rem_mul_r by (try lia; apply Z.pow_pos_nonneg; lia). lia.
Qed.

Lemma number_of_fixed_digits (n : nat) (z : Z) :
  0 <= z < 10 ^ Z.of_nat (S n) ->
  JsString.number_of_digits (JsString.fixed_digits (S n) z) = Some z.
Proof.
  intros Hz. unfold JsString.number_of_digits.
  pose proof (digits_from_fixed_digits (S n) z ltac:(lia)) as H.
  rewrite Z.mod_small in H by lia.
  destruct (JsString.fixed_digits (S n) z) eqn:E; [| exact H].
  pose proof (fixed_digits_length (S n) z) as L. rewrite E in L. discriminate.
Qed.

(** ** Date normalisation *)

Lemma in_range (y : Z) : 0 <= y <= 9999 -> (0 <=? y) && (y <=? 9999) = true.
Proof. intros H. apply andb_true_intro. split; apply Z.leb_le; lia. Qed.

(** The first ten characters of the ISO text are the calendar date. *)
Lemma toISOString_date (t : Z) :
  0 <= JsDate.YearFromTime t <= 9999 ->
  JsString.slice0 10 (JsDate.toISOString t)
  = JsDate.ymd (JsDate.YearFromTime t) (JsDate.MonthFromTime t + 1) (JsDate.DateFromTime t).
Proof.
  intros Hy. unfold JsDate.toISOString, JsDate.ymd.
  rewrite (in_range _ Hy).
  cbn [JsString.fixed_digits append JsString.slice0]. reflexivity.
Qed.

(** Reading the text of a calendar date gives the start of that day. *)
Lemma parse_ymd (y m d : Z) :
  0 <= y <= 9999 -> 1 <= m <= 12 -> 1 <= d <= 31 ->
  JsDate.parse (JsDate.ymd y m d) = Some (JsDate.MakeDay y (m - 1) d * JsDate.msPerDay).
Proof.
  intros Hy Hm Hd.
  pose proof (number_of_fixed_digits 3 y ltac:(cbn; lia)) as Py.
  pose proof (number_of_fixed_digits 1 m ltac:(cbn; lia)) as Pm.
  pose proof (number_of_fixed_digits 1 d ltac:(cbn; lia)) as Pd.
  unfold JsDate.parse, JsDate.ymd.
  cbn [JsString.fixed_digits append String.length String.substring String.get] in *.
  rewrite Py, Pm, Pd. cbn [Ascii.eqb Bool.eqb].
  replace ((1 <=? m) && (m <=? 12) && (1 <=? d) && (d <=? 31)) with true; [reflexivity |].
  symmetry. repeat (apply andb_true_intro; split); apply Z.leb_le; lia.
Qed.

Lemma char_of_digit_not_plus (z : Z) : JsString.char_of_digit z <> "+"%char.
Proof.
  intros E. pose proof (digit_of_char_of_digit z) as H. rewrite E in H. discriminate.
Qed.

(** C2, where the code meets it: the builder's date of an entry is, for a
    [Date] whose UTC year lies between 0 and 9999, the text [YYYY-MM-DD] of
    its UTC calendar date (a month from 01 to 12, a day from 01 to 31, and a text
    that reads back as the start of that very day); for a text value it is
    the first ten characters of the text, taken as they are, whatever the
    text holds.  The function is total: no date text makes it fail. *)
Theorem C2_date_normalisation (Date_toString : Z -> string) (filename : string)
    (attributes : Js.object) :
  (forall t,
      Js.get attributes "date" = JDate t ->
      0 <= JsDate.YearFromTime t <= 9999 ->
      GenerateManifest.date (GenerateManifest.post Date_toString filename attributes)
      = JStr (JsDate.ymd (JsDate.YearFromTime t) (JsDate.MonthFromTime t + 1) (JsDate.DateFromTime t))
      /\ 1 <= JsDate.MonthFromTime t + 1 <= 12
      /\ 1 <= JsDate.DateFromTime t <= 31
      /\ JsDate.parse (GenerateManifest.dateStr Date_toString (JDate t))
         = Some (JsDate.Day t * JsDate.msPerDay))
  /\ (forall s,
         Js.get attributes "date" = JStr s ->
         GenerateManifest.date (GenerateManifest.post Date_toString filename attributes)
         = JStr (JsString.slice0 10 s)).
Proof.
  split.
  - intros t Hget Hy.
    destruct (civil_date t) as (Hm & Hd & Hday).
    unfold GenerateManifest.post. cbn [GenerateManifest.date]. rewrite Hget.
    cbn [GenerateManifest.dateStr]. rewrite (toISOString_date _ Hy).
    repeat split; try lia.
    rewrite parse_ymd by lia.
    replace (JsDate.MonthFromTime t + 1 - 1) with (JsDate.MonthFromTime t) by lia.
    now rewrite Hday.
  - intros s Hget. unfold GenerateManifest.post. cbn [GenerateManifest.date]. rewrite Hget.
    cbn [GenerateManifest.dateStr Js.truthy Js.ToString].
    destruct s; reflexivity.
Qed.

Lemma C2_date_normalisation_witness :
  0 <= JsDate.YearFromTime (JsDate.UTC 2025 11 28) <= 9999
  /\ GenerateManifest.date
       (GenerateManifest.post JsDate.toStringUTC "a.md" [("date", JDate (JsDate.UTC 2025 11 28))])
     = JStr "2025-12-28"
  /\ GenerateManifest.date
       (GenerateManifest.post JsDate.toStringUTC "a.md" [("date", JStr "December 28th, 2025")])
     = JStr "December 2".
Proof.
  assert (Hy : 0 <= JsDate.YearFromTime (JsDate.UTC 2025 11 28) <= 9999)
    by (vm_compute; split; discriminate).
  split; [exact Hy |]. split.
  - destruct (proj1 (C2_date_normalisation JsDate.toStringUTC "a.md"
                       [("date", JDate (JsDate.UTC 2025 11 28))])
                    (JsDate.UTC 2025 11 28) eq_refl Hy) as (H & _).
    exact H.
  - exact (proj2 (C2_date_normalisation JsDate.toStringUTC "a.md"
                    [("date", JStr "December 28th, 2025")])
                 "December 28th, 2025" eq_refl).
Defined.

(** C2, where the code misses it: a header whose date is the YAML
    timestamp [9999-12-32] loads as the [Date] of 1 January 10000 (the day
    rolls over), whose ISO text starts with a sign and six digits.  The
    slice of ten characters, which the script's comment calls [YYYY-MM-DD],
    is then [+010000-01]: it is no [YYYY-MM-DD] text and has lost the
    day. *)
Lemma C2_year_beyond_9999 :
  let file := JsString.unlines ["---"; "date: 9999-12-32"; "---"; "text"] in
  FrontMatter.fm file
  = Ok {| FrontMatter.attributes := [("date", JDate (JsDate.UTC 9999 11 32))];
          FrontMatter.body := "text" |}
  /\ GenerateManifest.entry JsDate.toStringUTC "x.md" file
     = Ok {| GenerateManifest.title := JStr "x.md";
             GenerateManifest.date := JStr "+010000-01";
             GenerateManifest.slug := JStr "x";
             GenerateManifest.filename := "x.md";
             GenerateManifest.tags := JArr [] |}
  /\ forall y m d, JsDate.ymd y m d <> "+010000-01".
Proof.
  cbv zeta. split; [vm_compute; reflexivity |]. split; [vm_compute; reflexivity |].
  intros y m d E. unfold JsDate.ymd in E.
  cbn [JsString.fixed_digits append] in E. injection E as E _.
  exact (char_of_digit_not_plus _ E).
Qed.

(** ** Running the builder *)

Section BuilderRuns.
Import Node GenerateManifest.
Variable root : string.
Variable Date_parse : string -> option Z.
Variable Date_toString : Z -> string.

Lemma mbind_run {A B : Type} (m : M A) (k : A -> M B) (st : State) :
  mbind m k st
  = match m st with
    | (Ok a, st') => k a st'
    | (Throw e, st') => (Throw e, st')
    end.
Proof. reflexivity. Qed.

(** Reading the files changes nothing: the loop is a pure map over the
    entries of the directory. *)
Lemma mapM_read (convert : string -> string -> result Post) (names : list string) (st : State) :
  mapM (fun filename =>
          content <- readFileSync (postsDir root) filename ;;
          lift (convert filename content)) names st
  = (mapR (Claims.load convert (postsDir root) (entries (fs st))) names, st).
Proof.
  induction names as [| n names IH]; [reflexivity |].
  cbn [mapM mapR]. rewrite !mbind_run.
  unfold readFileSync at 1, Claims.load at 1.
  destruct (lookup n (entries (fs st))) as [[text | code] |]; cbn [bind]; try reflexivity.
  unfold lift at 1.
  destruct (convert n text) as [p | e]; cbn [bind]; [| reflexivity].
  rewrite mbind_run, IH.
  destruct (mapR _ names); reflexivity.
Qed.

Lemma files_run (st : State) : files root st = (Claims.listing root (fs st), st).
Proof.
  unfold files, mbind, readdirSync, Claims.listing.
  destruct (unreadable (fs st)); reflexivity.
Qed.

Lemma unsorted_run (st : State) :
  unsorted root Date_toString st
  = (bind (Claims.listing root (fs st))
          (mapR (Claims.load (entry Date_toString) (postsDir root) (entries (fs st)))), st).
Proof.
  unfold unsorted, mbind. rewrite files_run.
  destruct (Claims.listing root (fs st)); [apply mapM_read | reflexivity].
Qed.

Lemma plain_posts_run (st : State) :
  plain_posts root st
  = (bind (Claims.listing root (fs st))
          (mapR (Claims.load plain_entry (postsDir root) (entries (fs st)))), st).
Proof.
  unfold plain_posts, mbind. rewrite files_run.
  destruct (Claims.listing root (fs st)); [apply mapM_read | reflexivity].
Qed.

Lemma posts_run (st : State) :
  posts root Date_parse Date_toString st
  = (bind (bind (Claims.listing root (fs st))
                (mapR (Claims.load (entry Date_toString) (postsDir root) (entries (fs st)))))
          (fun ps => Ok (sort (newestFirst Date_parse Date_toString) ps)), st).
Proof.
  unfold posts, mbind. rewrite unsorted_run.
  destruct (bind _ _); reflexivity.
Qed.
End BuilderRuns.

(** Every converted file keeps its name. *)
Lemma mapR_Forall2 {A B : Type} (f : A -> result B) (xs : list A) (ys : list B) :
  mapR f xs = Ok ys -> Forall2 (fun x y => f x = Ok y) xs ys.
Proof.
  revert ys. induction xs as [| x xs IH]; intros ys H; cbn in H.
  - injection H as <-. constructor.
  - destruct (f x) as [y | e] eqn:Ex; cbn in H; [| discriminate].
    destruct (mapR f xs) as [ys' | e]; cbn in H; [| discriminate].
    injection H as <-. constructor; auto.
Qed.

Lemma mapR_total {A B : Type} (f : A -> result B) (xs : list A) :
  Forall (fun x => exists y, f x = Ok y) xs -> exists ys, mapR f xs = Ok ys.
Proof.
  induction 1 as [| x xs [y Hy] _ [ys IH]]; cbn.
  - eexists; reflexivity.
  - rewrite Hy, IH. cbn. eexists; reflexivity.
Qed.

Lemma load_filename convert dir es name p :
  (forall n text q, convert n text = Ok q -> GenerateManifest.filename q = n) ->
  Claims.load convert dir es name = Ok p -> GenerateManifest.filename p = name.
Proof.
  intros Hc. unfold Claims.load.
  destruct (Node.lookup name es) as [[text | code] |]; try discriminate.
  apply Hc.
Qed.

Lemma entry_filename toStr n text q :
  GenerateManifest.entry toStr n text = Ok q -> GenerateManifest.filename q = n.
Proof.
  unfold GenerateManifest.entry. destruct (FrontMatter.fm text); cbn; [| discriminate].
  intros H. injection H as <-. reflexivity.
Qed.

Lemma plain_entry_filename n text q :
  GenerateManifest.plain_entry n text = Ok q -> GenerateManifest.filename q = n.
Proof.
  unfold GenerateManifest.plain_entry. destruct (FrontMatter.fm text); cbn; [| discriminate].
  intros H. injection H as <-. reflexivity.
Qed.

Lemma Forall2_filenames (f : string -> result GenerateManifest.Post) names ps :
  (forall n p, f n = Ok p -> GenerateManifest.filename p = n) ->
  Forall2 (fun x y => f x = Ok y) names ps -> map GenerateManifest.filename ps = names.
Proof.
  intros Hf. induction 1 as [| n p names ps Hnp _ IH]; cbn; [reflexivity |].
  now rewrite (Hf _ _ Hnp), IH.
Qed.

(** ** The sort *)

Section SortFacts.
Context {A : Type}.
Variable comparefn : A -> A -> option Z.

Lemma insert_Permutation (x : A) (l : list A) :
  Permutation (insert comparefn x l) (x :: l).
Proof.
  induction l as [| y l IH]; cbn; [reflexivity |].
  destruct (0 <? SortCompare comparefn x y); [| reflexivity].
  rewrite IH. apply perm_swap.
Qed.

(** Sorting reorders the elements and does nothing else. *)
Lemma sort_Permutation (l : list A) : Permutation (sort comparefn l) l.
Proof.
  induction l as [| x l IH]; cbn; [reflexivity |].
  unfold sort in IH. rewrite insert_Permutation. now constructor.
Qed.

(** When the comparator is the difference of two keys that are numbers,
    the result is in descending key order. *)
Variable key : A -> option Z.
Hypothesis comparefn_key : forall x y, comparefn x y = GenerateManifest.minus (key y) (key x).

Lemma insert_Descending (x : A) (l : list A) :
  key x <> None -> Forall (fun y => key y <> None) l ->
  Claims.Descending key l -> Claims.Descending key (insert comparefn x l).
Proof.
  intros Hx Hl Hd. induction Hd as [| y | y z l Hyz Hd IH]; cbn.
  - constructor.
  - unfold SortCompare. rewrite comparefn_key.
    apply Forall_inv in Hl.
    destruct (key x) as [kx |] eqn:Ex; [| congruence].
    destruct (key y) as [ky |] eqn:Ey; [| congruence]. cbn.
    destruct (Z.ltb_spec 0 (ky - kx)).
    + constructor; [| constructor]. rewrite Ex, Ey. cbn. apply Z.leb_le. lia.
    + constructor; [| constructor]. rewrite Ex, Ey. cbn. apply Z.leb_le. lia.
  - pose proof (Forall_inv Hl) as Hy. apply Forall_inv_tail in Hl.
    specialize (IH Hl). cbn in IH.
    unfold SortCompare in *. rewrite !comparefn_key in *.
    destruct (key x) as [kx |] eqn:Ex; [| congruence].
    destruct (key y) as [ky |] eqn:Ey; [| congruence].
    pose proof (Forall_inv Hl) as Hz.
    destruct (key z) as [kz |] eqn:Ez; [| congruence]. cbn in *.
    destruct (Z.ltb_spec 0 (ky - kx)).
    + destruct (Z.ltb_spec 0 (kz - kx)).
      * constructor; [rewrite Ey, Ez; exact Hyz | exact IH].
      * constructor; [rewrite Ey, Ex; cbn; apply Z.leb_le; lia | exact IH].
    + constructor; [rewrite Ex, Ey; cbn; apply Z.leb_le; lia |].
      constructor; [rewrite Ey, Ez; exact Hyz | exact Hd].
Qed.

Lemma sort_Descending (l : list A) :
  Forall (fun y => key y <> None) l -> Claims.Descending key (sort comparefn l).
Proof.
  induction l as [| x l IH]; intros H; cbn; [constructor |].
  pose proof (Forall_inv H) as Hx. apply Forall_inv_tail in H.
  apply insert_Descending; auto.
  eapply Permutation_Forall; [| exact H]. symmetry. apply sort_Permutation.
Qed.

Lemma Descending_adjacent (l : list A) :
  Claims.Descending key l ->
  forall i a b, nth_error l i = Some a -> nth_error l (S i) = Some b ->
                Claims.geq (key a) (key b) = true.
Proof.
  induction 1 as [| x | x y l Hxy Hd IH]; intros i a b Ha Hb.
  - destruct i; discriminate.
  - destruct i as [| [| i]]; discriminate.
  - destruct i as [| i].
    + cbn in Ha, Hb. injection Ha as <-. injection Hb as <-. exact Hxy.
    + apply (IH i); assumption.
Qed.
End SortFacts.

(** ** The order of the manifest *)

(** An entry whose date does not parse breaks the order wherever the
    sort leaves it, as soon as there are two entries. *)
Lemma invalid_date_breaks_order parse toStr (ps : list GenerateManifest.Post) p :
  In p ps ->
  GenerateManifest.getTime parse toStr (GenerateManifest.date p) = None ->
  (2 <= List.length ps)%nat ->
  ~ Claims.sortedByDateDescending parse toStr ps.
Proof.
  intros Hin Hnone Hlen Hsorted.
  destruct (In_nth_error _ _ Hin) as [i Hi].
  destruct (nth_error ps (S i)) as [b |] eqn:Hb.
  - specialize (Hsorted i p b Hi Hb). rewrite Hnone in Hsorted. discriminate.
  - apply nth_error_None in Hb.
    assert (Hlt : (i < List.length ps)%nat) by (apply nth_error_Some; congruence).
    destruct i as [| j]; [lia |].
    destruct (nth_error ps j) as [a |] eqn:Ha.
    + specialize (Hsorted j a p Ha Hi). rewrite Hnone in Hsorted.
      destruct (GenerateManifest.getTime parse toStr (GenerateManifest.date a)); discriminate.
    + apply nth_error_None in Ha. lia.
Qed.

(** C1 (as amended): when the date of every entry parses, the entries
    the builder serialises are in descending order of their parsed dates:
    each one is at least the next. *)
Theorem C1_sorted_when_dates_parse (root : string) (Date_parse : string -> option Z)
    (Date_toString : Z -> string) (disk : Node.FS) (ps : list GenerateManifest.Post)
    (st : Node.State) :
  GenerateManifest.posts root Date_parse Date_toString {| Node.fs := disk; Node.stdout := [] |}
  = (Ok ps, st) ->
  Claims.allDatesValid Date_parse Date_toString ps ->
  Claims.sortedByDateDescending Date_parse Date_toString ps.
Proof.
  intros Hrun Hvalid. rewrite posts_run in Hrun.
  destruct (bind (Claims.listing root _) _) as [us | e]; cbn in Hrun; [| discriminate].
  injection Hrun as <- _.
  set (key := fun p => GenerateManifest.getTime Date_parse Date_toString (GenerateManifest.date p)).
  unfold Claims.sortedByDateDescending.
  apply (Descending_adjacent key).
  apply sort_Descending; [reflexivity |].
  eapply Permutation_Forall; [apply sort_Permutation | exact Hvalid].
Qed.

(** The posts directory with only dated posts. *)
Lemma C1_sorted_when_dates_parse_witness :
  let disk := {| Node.unreadable := None;
                 Node.unwritable := None;
                 Node.entries := firstn 2 (Node.entries scenario) |} in
  exists ps st,
    GenerateManifest.posts "/repo" JsDate.parse JsDate.toStringUTC
      {| Node.fs := disk; Node.stdout := [] |} = (Ok ps, st)
    /\ map GenerateManifest.filename ps = ["b.md"; "a.md"]
    /\ Claims.allDatesValid JsDate.parse JsDate.toStringUTC ps
    /\ Claims.sortedByDateDescending JsDate.parse JsDate.toStringUTC ps.
Proof.
  intro disk.
  destruct (GenerateManifest.posts "/repo" JsDate.parse JsDate.toStringUTC
              {| Node.fs := disk; Node.stdout := [] |}) as [[ps | e] st] eqn:Hrun.
  - exists ps, st.
    assert (Hps : map GenerateManifest.filename ps = ["b.md"; "a.md"]).
    { vm_compute in Hrun. injection Hrun as <- _. reflexivity. }
    assert (Hvalid : Claims.allDatesValid JsDate.parse JsDate.toStringUTC ps).
    { vm_compute in Hrun. injection Hrun as <- _.
      repeat constructor; vm_compute; discriminate. }
    repeat split; trivial.
    exact (C1_sorted_when_dates_parse "/repo" JsDate.parse JsDate.toStringUTC disk ps st
             Hrun Hvalid).
  - vm_compute in Hrun. discriminate.
Defined.

(** C1 as stated fails: in the spec's own scenario the post without a
    date gets the empty date, which parses to [NaN]; no comparison with
    [NaN] holds, so the entries are not in order, and no reordering of them
    would be. *)
Lemma C1_counterexample :
  exists ps st,
    GenerateManifest.posts "/repo" JsDate.parse JsDate.toStringUTC
      {| Node.fs := scenario; Node.stdout := [] |} = (Ok ps, st)
    /\ map GenerateManifest.filename ps = ["b.md"; "a.md"; "c.md"]
    /\ ~ Claims.sortedByDateDescending JsDate.parse JsDate.toStringUTC ps
    /\ forall qs, Permutation ps qs ->
                  ~ Claims.sortedByDateDescending JsDate.parse JsDate.toStringUTC qs.
Proof.
  destruct (GenerateManifest.posts "/repo" JsDate.parse JsDate.toStringUTC
              {| Node.fs := scenario; Node.stdout := [] |}) as [[ps | e] st] eqn:Hrun;
    vm_compute in Hrun; [| discriminate].
  injection Hrun as <- <-.
  eexists _, _. split; [reflexivity |]. split; [reflexivity |].
  match goal with
  | |- ~ Claims.sortedByDateDescending _ _ ?l /\ _ =>
      assert (Hbreak : forall qs, Permutation l qs ->
                ~ Claims.sortedByDateDescending JsDate.parse JsDate.toStringUTC qs)
  end.
  { intros qs Hperm.
    eapply invalid_date_breaks_order with (p := {| GenerateManifest.title := JStr "c.md";
                                                   GenerateManifest.date := JStr EmptyString;
                                                   GenerateManifest.slug := JStr "c";
                                                   GenerateManifest.filename := "c.md";
                                                   GenerateManifest.tags := JArr [] |}).
    - eapply Permutation_in; [exact Hperm |]. cbn. tauto.
    - reflexivity.
    - rewrite <- (Permutation_length Hperm). cbn. lia. }
  split; [apply Hbreak; reflexivity | exact Hbreak].
Qed.

(** ** Files without front-matter *)

Lemma slice0_sliceFrom (n : nat) (s : string) :
  JsString.slice0 n s ++ JsString.sliceFrom n s = s.
Proof.
  revert s. induction n as [| n IH]; intros [| c s]; cbn; try reflexivity.
  now rewrite IH.
Qed.

(** A name that ends with a suffix is a stem followed by the suffix. *)
Lemma endsWith_stem (p s : string) :
  JsString.endsWith p s = true ->
  s = JsString.slice0 (String.length s - String.length p) s ++ p.
Proof.
  unfold JsString.endsWith. intros H. apply andb_prop in H as [_ H].
  apply String.eqb_eq in H.
  set (n := (String.length s - String.length p)%nat) in *.
  rewrite <- H. symmetry. apply slice0_sliceFrom.
Qed.




(** ** Failures of the build *)

(** C7: when the posts directory cannot be listed, the run of the
    builder (either revision) ends with exit code 1 and the error of
    [readdirSync] on the error stream; nothing is printed on the output and
    the directory, with the manifest it may hold, is as it was. *)
Theorem C7_unreadable_directory_aborts (root : string) (Date_parse : string -> option Z)
    (Date_toString : Z -> string) (disk : Node.FS) (code : string) :
  Node.unreadable disk = Some code ->
  Node.run (GenerateManifest.main root Date_parse Date_toString) disk
  = {| Node.exitCode := 1;
       Node.out := [];
       Node.err := [SystemError code "scandir" (GenerateManifest.postsDir root)];
       Node.disk := disk |}
  /\ Node.run (GenerateManifest.plain_main root) disk
     = Node.run (GenerateManifest.main root Date_parse Date_toString) disk.
Proof.
  intros H.
  unfold Node.run, GenerateManifest.main, GenerateManifest.plain_main.
  rewrite !mbind_run, posts_run, plain_posts_run.
  unfold Claims.listing. cbn [Node.fs]. rewrite H. cbn. split; reflexivity.
Qed.

Lemma C7_unreadable_directory_aborts_witness :
  let disk := {| Node.unreadable := Some "EACCES";
                 Node.unwritable := None;
                 Node.entries := [("manifest.json", Node.File "[]")] |} in
  Node.run (GenerateManifest.main "/repo" JsDate.parse JsDate.toStringUTC) disk
  = {| Node.exitCode := 1;
       Node.out := [];
       Node.err := [SystemError "EACCES" "scandir" "/repo/src/posts"];
       Node.disk := disk |}.
Proof.
  intro disk.
  exact (proj1 (C7_unreadable_directory_aborts "/repo" JsDate.parse JsDate.toStringUTC
                  disk "EACCES" eq_refl)).
Defined.

Lemma lookup_store (name : string) (e : Node.DirEntry) (entries : list (string * Node.DirEntry)) :
  Node.lookup name (Node.store name e entries) = Some e.
Proof.
  induction entries as [| [n old] entries IH]; cbn.
  - now rewrite String.eqb_refl.
  - destruct (String.eqb n name) eqn:E; cbn; rewrite E; [reflexivity | exact IH].
Qed.

(** The three ways a run of the builder ends: the entries cannot be
    made, the manifest cannot be written, or it is written. *)
Lemma main_run (root : string) (Date_parse : string -> option Z)
    (Date_toString : Z -> string) (disk : Node.FS) :
  Node.run (GenerateManifest.main root Date_parse Date_toString) disk
  = Claims.ending root disk
      (fst (GenerateManifest.posts root Date_parse Date_toString
              {| Node.fs := disk; Node.stdout := [] |})).
Proof.
  unfold Node.run, GenerateManifest.main, Claims.ending.
  rewrite mbind_run, posts_run. cbn [fst].
  destruct (bind (bind _ _) _) as [ps | e]; [| reflexivity].
  rewrite mbind_run. unfold Node.writeFileSync. cbn [Node.fs].
  destruct (Node.unwritable disk) as [wcode |],
    (Node.lookup GenerateManifest.manifestName (Node.entries disk)) as [[text | code] |];
    reflexivity.
Qed.

Lemma plain_main_run (root : string) (disk : Node.FS) :
  Node.run (GenerateManifest.plain_main root) disk
  = Claims.ending root disk
      (fst (GenerateManifest.plain_posts root {| Node.fs := disk; Node.stdout := [] |})).
Proof.
  unfold Node.run, GenerateManifest.plain_main, Claims.ending.
  rewrite mbind_run, plain_posts_run. cbn [fst].
  destruct (bind _ _) as [ps | e]; [| reflexivity].
  rewrite mbind_run. unfold Node.writeFileSync. cbn [Node.fs].
  destruct (Node.unwritable disk) as [wcode |],
    (Node.lookup GenerateManifest.manifestName (Node.entries disk)) as [[text | code] |];
    reflexivity.
Qed.

Lemma failed_ending (root : string) (disk : Node.FS) r :
  Node.exitCode (Claims.ending root disk r) <> 0 -> Node.disk (Claims.ending root disk r) = disk.
Proof.
  unfold Claims.ending. destruct r as [ps | e]; [| reflexivity].
  destruct (Node.unwritable disk) as [wcode |],
    (Node.lookup GenerateManifest.manifestName (Node.entries disk)) as [[text | code] |];
    cbn [Node.exitCode Node.disk]; intros H; try reflexivity; exfalso; apply H; reflexivity.
Qed.

Lemma successful_ending (root : string) (disk : Node.FS) r :
  Node.exitCode (Claims.ending root disk r) = 0 ->
  exists ps,
    r = Ok ps
    /\ Node.lookup GenerateManifest.manifestName (Node.entries (Node.disk (Claims.ending root disk r)))
       = Some (Node.File (Json.stringify (Json.Arr (map GenerateManifest.toJson ps)))).
Proof.
  unfold Claims.ending. destruct r as [ps | e]; [| cbn; discriminate].
  intros H. exists ps. split; [reflexivity |]. revert H.
  destruct (Node.unwritable disk) as [wcode |],
    (Node.lookup GenerateManifest.manifestName (Node.entries disk)) as [[text | code] |];
    cbn [Node.exitCode Node.disk Node.entries]; intros H;
    solve [discriminate | apply lookup_store].
Qed.

(** Whatever makes the build fail, the directory is left as it was: the
    only write is the last step that can fail. *)
Lemma failed_build_writes_nothing (root : string) (Date_parse : string -> option Z)
    (Date_toString : Z -> string) (disk : Node.FS) :
  Node.exitCode (Node.run (GenerateManifest.main root Date_parse Date_toString) disk) <> 0 ->
  Node.disk (Node.run (GenerateManifest.main root Date_parse Date_toString) disk) = disk.
Proof. rewrite main_run. apply failed_ending. Qed.

Lemma failed_plain_build_writes_nothing (root : string) (disk : Node.FS) :
  Node.exitCode (Node.run (GenerateManifest.plain_main root) disk) <> 0 ->
  Node.disk (Node.run (GenerateManifest.plain_main root) disk) = disk.
Proof. rewrite plain_main_run. apply failed_ending. Qed.

(** ** The entries of the manifest are the markdown files *)

Lemma markdownNames_end_in_md (disk : Node.FS) (n : string) :
  In n (Claims.markdownNames disk) -> JsString.endsWith ".md" n = true.
Proof.
  unfold Claims.markdownNames. intros H. apply filter_In in H. tauto.
Qed.

Lemma filenames_end_in_md (disk : Node.FS) (ps : list GenerateManifest.Post) :
  Permutation (map GenerateManifest.filename ps) (Claims.markdownNames disk) ->
  Forall (fun p => JsString.endsWith ".md" (GenerateManifest.filename p) = true) ps.
Proof.
  intros Hperm. apply Forall_forall. intros p Hp.
  apply (markdownNames_end_in_md disk).
  eapply Permutation_in; [exact Hperm |]. now apply in_map.
Qed.

(** C10: the entries the builder serialises are the names of the posts
    directory that end in [.md], one entry for each, under the very name
    the listing gave: in listing order for the first revision, reordered by
    the sort for the second.  Every entry's file name ends in [.md]. *)
Theorem C10_entries_are_the_markdown_files (root : string)
    (Date_parse : string -> option Z) (Date_toString : Z -> string) (disk : Node.FS) :
  (forall ps st,
      GenerateManifest.posts root Date_parse Date_toString
        {| Node.fs := disk; Node.stdout := [] |} = (Ok ps, st) ->
      Permutation (map GenerateManifest.filename ps) (Claims.markdownNames disk)
      /\ Forall (fun p => JsString.endsWith ".md" (GenerateManifest.filename p) = true) ps)
  /\ (forall ps st,
         GenerateManifest.plain_posts root {| Node.fs := disk; Node.stdout := [] |} = (Ok ps, st) ->
         map GenerateManifest.filename ps = Claims.markdownNames disk
         /\ Forall (fun p => JsString.endsWith ".md" (GenerateManifest.filename p) = true) ps).
Proof.
  split; intros ps st Hrun.
  - rewrite posts_run in Hrun. unfold Claims.listing in Hrun. cbn [Node.fs] in Hrun.
    destruct (Node.unreadable disk); [discriminate |]. cbn [bind] in Hrun.
    destruct (mapR _ _) as [us | e] eqn:Hmap; cbn in Hrun; [| discriminate].
    injection Hrun as <- _.
    apply mapR_Forall2 in Hmap.
    apply Forall2_filenames in Hmap;
      [| intros n p; apply load_filename; intros; eapply entry_filename; eassumption].
    assert (Hperm : Permutation
                      (map GenerateManifest.filename
                         (sort (GenerateManifest.newestFirst Date_parse Date_toString) us))
                      (Claims.markdownNames disk)).
    { rewrite <- Hmap. apply Permutation_map, sort_Permutation. }
    split; [exact Hperm | exact (filenames_end_in_md _ _ Hperm)].
  - rewrite plain_posts_run in Hrun. unfold Claims.listing in Hrun. cbn [Node.fs] in Hrun.
    destruct (Node.unreadable disk); [discriminate |]. cbn [bind] in Hrun.
    injection Hrun as Hmap _.
    apply mapR_Forall2 in Hmap.
    apply Forall2_filenames in Hmap;
      [| intros n p; apply load_filename; intros; eapply plain_entry_filename; eassumption].
    split; [exact Hmap |]. apply (filenames_end_in_md disk). now rewrite Hmap.
Qed.

Lemma C10_entries_are_the_markdown_files_witness :
  exists ps st,
    GenerateManifest.posts "/repo" JsDate.parse JsDate.toStringUTC
      {| Node.fs := scenario; Node.stdout := [] |} = (Ok ps, st)
    /\ Claims.markdownNames scenario = ["a.md"; "b.md"; "c.md"]
    /\ Permutation (map GenerateManifest.filename ps) (Claims.markdownNames scenario)
    /\ Forall (fun p => JsString.endsWith ".md" (GenerateManifest.filename p) = true) ps.
Proof.
  destruct (GenerateManifest.posts "/repo" JsDate.parse JsDate.toStringUTC
              {| Node.fs := scenario; Node.stdout := [] |}) as [[ps | e] st] eqn:Hrun.
  - exists ps, st. split; [reflexivity |]. split; [reflexivity |].
    exact (proj1 (C10_entries_are_the_markdown_files "/repo" JsDate.parse JsDate.toStringUTC
                    scenario) ps st Hrun).
  - vm_compute in Hrun. discriminate.
Defined.

(** The builder does produce its entries when the directory can be listed
    and every markdown name is a file whose header loads. *)
Lemma build_succeeds (root : string) (Date_parse : string -> option Z)
    (Date_toString : Z -> string) (disk : Node.FS) :
  Node.unreadable disk = None ->
  Forall (fun n => exists p,
              Claims.load (GenerateManifest.entry Date_toString)
                (GenerateManifest.postsDir root) (Node.entries disk) n = Ok p)
         (Claims.markdownNames disk) ->
  exists ps, fst (GenerateManifest.posts root Date_parse Date_toString
                    {| Node.fs := disk; Node.stdout := [] |}) = Ok ps.
Proof.
  intros Hread Hall. rewrite posts_run. unfold Claims.listing. cbn [Node.fs fst].
  rewrite Hread. cbn [bind].
  destruct (mapR_total _ _ Hall) as [us Hus]. rewrite Hus. cbn. eexists; reflexivity.
Qed.

(** ** Filtering the list by tag *)

Section TagFilter.
Import BlogList.

Lemma field_tags (p : BlogPost) :
  Json.prop (toJson p) "tags"
  = Ok (match tags p with
        | Some ts => Some (Json.Arr (map Json.Str ts))
        | None => None
        end).
Proof.
  unfold toJson. destruct (content p), (tags p); reflexivity.
Qed.

Lemma existsb_tag (tag : string) (ts : list string) :
  existsb (sameValueZero (Json.Str tag)) (map Json.Str ts) = existsb (String.eqb tag) ts.
Proof.
  induction ts as [| t ts IH]; cbn; [reflexivity | now rewrite IH].
Qed.

Lemma hasTag_typed (tag : string) (p : BlogPost) :
  hasTag tag (toJson p) = Ok (Claims.carries tag p).
Proof.
  unfold hasTag, Claims.carries. rewrite field_tags. cbn [bind].
  destruct (tags p); [now rewrite existsb_tag | reflexivity].
Qed.

Lemma filterM_typed (tag : string) (ps : list BlogPost) :
  filterM (hasTag tag) (map toJson ps) = Ok (map toJson (filter (Claims.carries tag) ps)).
Proof.
  induction ps as [| p ps IH]; cbn [map filterM filter]; [reflexivity |].
  rewrite hasTag_typed, IH. cbn [bind]. destruct (Claims.carries tag p); reflexivity.
Qed.

Lemma flatMapTags_typed (ps : list BlogPost) :
  exists ts, flatMapTags (map toJson ps) = Ok ts.
Proof.
  induction ps as [| p ps [ts IH]]; cbn [map flatMapTags]; [eexists; reflexivity |].
  unfold tagsOrEmpty. rewrite field_tags, IH. cbn [bind].
  destruct (tags p); cbn; eexists; reflexivity.
Qed.

Lemma carries_Carries (tag : string) (p : BlogPost) :
  Claims.carries tag p = true <-> Claims.Carries tag p.
Proof.
  unfold Claims.carries, Claims.Carries. split.
  - destruct (tags p) as [ts |]; [| discriminate]. intros H.
    apply existsb_exists in H as (t & Hin & Heq). apply String.eqb_eq in Heq. subst t.
    now exists ts.
  - intros (ts & -> & Hin). apply existsb_exists. exists tag. split; [exact Hin |].
    apply String.eqb_refl.
Qed.

Lemma filter_Subsequence {A : Type} (f : A -> bool) (l : list A) :
  Claims.Subsequence (filter f l) l.
Proof.
  induction l as [| x l IH]; cbn; [constructor |].
  destruct (f x); now constructor.
Qed.

Lemma filter_count (tag : string) (ps : list BlogPost) :
  List.length (filter (Claims.carries tag) ps) = Claims.count tag ps.
Proof.
  induction ps as [| p ps IH]; cbn; [reflexivity |].
  destruct (Claims.carries tag p); cbn; now rewrite IH.
Qed.

(** For a tag that is not empty, the page lists the entries that carry
    it and only those. *)
Lemma listPosts_typed (tag : string) (ps : list BlogPost) :
  tag <> EmptyString ->
  exists ts,
    listPosts (Some tag) (Http.Resolved (Http.serveJson (Claims.manifest ps)))
    = Ok {| strip := ts; listed := map toJson (filter (Claims.carries tag) ps) |}.
Proof.
  intros Htag. unfold listPosts, loadLocalPosts, render, allTags, filteredPosts.
  cbn [Http.json Http.serveJson Claims.manifest].
  destruct (flatMapTags_typed ps) as [ts ->]. cbn [bind].
  exists (distinct [] ts).
  destruct tag; [contradiction |]. cbn [JsString.isEmpty].
  rewrite filterM_typed. reflexivity.
Qed.
End TagFilter.

(** C4 (as amended): for every manifest of entries of the declared shape
    (tags absent or an array of texts) and every tag filter the route
    delivers, which is never empty, the page lists the entries whose tags
    hold that very string, all of them and only them, in the order of the
    manifest; when exactly N entries carry the tag, N entries are listed. *)
Theorem C4_filter_by_tag (tag : string) (ps : list BlogList.BlogPost) :
  tag <> EmptyString ->
  let kept := filter (Claims.carries tag) ps in
  (exists ts,
      BlogList.listPosts (Some tag) (Http.Resolved (Http.serveJson (Claims.manifest ps)))
      = Ok {| BlogList.strip := ts; BlogList.listed := map BlogList.toJson kept |})
  /\ (forall p, In p kept <-> In p ps /\ Claims.Carries tag p)
  /\ Claims.Subsequence kept ps
  /\ List.length kept = Claims.count tag ps.
Proof.
  intros Htag kept. split; [exact (listPosts_typed tag ps Htag) |]. split.
  - intros p. unfold kept. rewrite filter_In, carries_Carries. reflexivity.
  - split; [apply filter_Subsequence | apply filter_count].
Qed.

Lemma C4_filter_by_tag_witness :
  let post name ts :=
    {| BlogList.title := name; BlogList.date := "2025-12-02"; BlogList.slug := name;
       BlogList.content := None; BlogList.filename := name ++ ".md";
       BlogList.tags := ts |} in
  let ps := [post "one" (Some ["azure"; "devops"]); post "two" None;
             post "three" (Some ["Azure"]); post "four" (Some ["react"; "azure"])] in
  (exists ts,
      BlogList.listPosts (Some "azure") (Http.Resolved (Http.serveJson (Claims.manifest ps)))
      = Ok {| BlogList.strip := ts;
              BlogList.listed := map BlogList.toJson
                                   [post "one" (Some ["azure"; "devops"]);
                                    post "four" (Some ["react"; "azure"])] |})
  /\ Claims.count "azure" ps = 2%nat.
Proof.
  intros post ps.
  destruct (C4_filter_by_tag "azure" ps ltac:(discriminate)) as (Hlist & _ & _ & Hcount).
  split; [exact Hlist | reflexivity].
Defined.

(** C4 as stated fails on a manifest the builder can write: a header
    that declares [tags: azure-functions], a text and not a list, gives an
    entry whose tags are that text; the page filtered by [azure] lists the
    entry, because the filter occurs inside the text, although [azure] is
    not its tag. *)
Lemma C4_counterexample :
  let file := JsString.unlines ["---"; "title: One"; "tags: azure-functions"; "---"; "text"] in
  exists p,
    GenerateManifest.entry JsDate.toStringUTC "one.md" file = Ok p
    /\ GenerateManifest.tags p = JStr "azure-functions"
    /\ BlogList.listPosts (Some "azure")
         (Http.Resolved (Http.serveJson (GenerateManifest.document [p])))
       = Ok {| BlogList.strip := [Json.Str "azure-functions"];
               BlogList.listed := [GenerateManifest.toJson p] |}
    /\ "azure" <> "azure-functions".
Proof.
  cbv zeta. eexists. split; [vm_compute; reflexivity |].
  split; [reflexivity |]. split; [vm_compute; reflexivity | discriminate].
Qed.

(** ** Loading a post *)


(** C5 (as amended): the file whose header declares title [X], date
    [2025-01-02] and slug [x] and whose body is [Hello], served under the
    URL of slug [x], loads as the post with title [X] and content [Hello];
    its date is the [Date] of the start of 2 January 2025 in UTC when the
    header writes the date as the file format does, without quotes, and the
    text [2025-01-02] only when the header writes it between quotes. *)
Theorem C5_round_trip (resolveAsset : string -> string) (server : Http.Server)
    (date : string) :
  server (BlogPost.url resolveAsset "x")
  = Http.Resolved (Http.serveText (Claims.postFile "X" date "x" "Hello")) ->
  (date = "2025-01-02" ->
   BlogPost.loadPost resolveAsset server "x"
   = Some {| BlogPost.title := JStr "X";
             BlogPost.date := JDate (JsDate.UTC 2025 0 2);
             BlogPost.content := "Hello" |}
   /\ JsDate.parse "2025-01-02" = Some (JsDate.UTC 2025 0 2))
  /\ (date = Claims.quoted "2025-01-02" ->
      BlogPost.loadPost resolveAsset server "x"
      = Some {| BlogPost.title := JStr "X";
                BlogPost.date := JStr "2025-01-02";
                BlogPost.content := "Hello" |}).
Proof.
  intros H. unfold BlogPost.loadPost. rewrite H.
  split; intros ->; [split |]; vm_compute; reflexivity.
Qed.

Lemma C5_round_trip_witness :
  let server date url :=
    if String.eqb url "/the-orchestration-layer/src/posts/x.md"
    then Http.Resolved (Http.serveText (Claims.postFile "X" date "x" "Hello"))
    else Http.Resolved (Http.notFound "Not Found") in
  BlogPost.loadPost BlogPost.basePath (server "2025-01-02") "x"
  = Some {| BlogPost.title := JStr "X";
            BlogPost.date := JDate (JsDate.UTC 2025 0 2);
            BlogPost.content := "Hello" |}
  /\ BlogPost.loadPost BlogPost.basePath (server (Claims.quoted "2025-01-02")) "x"
     = Some {| BlogPost.title := JStr "X";
               BlogPost.date := JStr "2025-01-02";
               BlogPost.content := "Hello" |}.
Proof.
  intro server. split.
  - exact (proj1 (proj1 (C5_round_trip BlogPost.basePath (server "2025-01-02") "2025-01-02"
                           eq_refl) eq_refl)).
  - exact (proj2 (C5_round_trip BlogPost.basePath (server (Claims.quoted "2025-01-02"))
                    (Claims.quoted "2025-01-02") eq_refl) eq_refl).
Defined.

(** C5 as stated fails for the file in the format of the spec and of
    every post of the repository: the date written without quotes comes
    back as a [Date], which is not the text [2025-01-02]. *)
Lemma C5_counterexample :
  exists p,
    BlogPost.loadPost BlogPost.basePath
      (fun _ => Http.Resolved (Http.serveText (Claims.postFile "X" "2025-01-02" "x" "Hello"))) "x"
    = Some p
    /\ BlogPost.title p = JStr "X"
    /\ BlogPost.content p = "Hello"
    /\ BlogPost.date p = JDate 1735776000000
    /\ BlogPost.date p <> JStr "2025-01-02".
Proof.
  eexists. split; [vm_compute; reflexivity |].
  repeat split. discriminate.
Qed.

(** Written without quotes, as the posts of the repository write it, the
    date loads as a [Date]: the start of that day in UTC. *)
Example loadPost_unquoted_date :
  BlogPost.loadPost BlogPost.basePath
    (fun _ => Http.Resolved (Http.serveText (Claims.postFile "X" "2025-01-02" "x" "Hello"))) "x"
  = Some {| BlogPost.title := JStr "X";
            BlogPost.date := JDate (JsDate.UTC 2025 0 2);
            BlogPost.content := "Hello" |}
  /\ JsDate.toISOString (JsDate.UTC 2025 0 2) = "2025-01-02T00:00:00.000Z".
Proof. split; vm_compute; reflexivity. Qed.

Lemma settled_state_is_final (st : BlogPost.State) (events : list BlogPost.Event) :
  BlogPost.pending st = false -> BlogPost.run st events = st.
Proof.
  intros H. unfold BlogPost.run. induction events as [| e events IH]; cbn; [reflexivity |].
  destruct e as [f |]; cbn [BlogPost.step]; [rewrite H |]; exact IH.
Qed.

(** C8 (as amended): when the fetch of the post rejects (no response
    arrives), [setPost] is never called: the state stays [null] and the view
    stays on the loading text through every later event; no message is
    shown. *)
Theorem C8_rejected_fetch_keeps_loading (resolveAsset : string -> string)
    (server : Http.Server) (slug : string) (e : Exn) (events : list BlogPost.Event) :
  server (BlogPost.url resolveAsset slug) = Http.Rejected e ->
  BlogPost.loadPost resolveAsset server slug = None
  /\ BlogPost.view
       (BlogPost.run
          (BlogPost.step BlogPost.mount (BlogPost.Settle (server (BlogPost.url resolveAsset slug))))
          events)
     = BlogPost.Loading.
Proof.
  intros H. unfold BlogPost.loadPost. rewrite H. cbn [BlogPost.step BlogPost.mount
    BlogPost.pending BlogPost.fetchPost BlogPost.post].
  split; [reflexivity |].
  rewrite settled_state_is_final by reflexivity. reflexivity.
Qed.

Lemma C8_rejected_fetch_keeps_loading_witness :
  let server := fun _ : string => Http.Rejected (TypeError "Failed to fetch") in
  BlogPost.loadPost BlogPost.basePath server "authpilot-fax-processing" = None
  /\ BlogPost.view
       (BlogPost.run
          (BlogPost.step BlogPost.mount
             (BlogPost.Settle (server (BlogPost.url BlogPost.basePath "authpilot-fax-processing"))))
          [BlogPost.Render; BlogPost.Settle (Http.Resolved (Http.serveText "late")); BlogPost.Render])
     = BlogPost.Loading.
Proof.
  intro server.
  exact (C8_rejected_fetch_keeps_loading BlogPost.basePath server "authpilot-fax-processing"
           (TypeError "Failed to fetch")
           [BlogPost.Render; BlogPost.Settle (Http.Resolved (Http.serveText "late")); BlogPost.Render]
           eq_refl).
Defined.

(** C8 as stated fails for a 404: the fetch resolves, the error page is
    read as a post without front-matter, and the view leaves the loading
    state to show it. *)
Lemma C8_counterexample :
  let server := fun _ : string => Http.Resolved (Http.notFound "Not Found") in
  let shown := {| BlogPost.title := JUndefined;
                  BlogPost.date := JUndefined;
                  BlogPost.content := "Not Found" |} in
  BlogPost.loadPost BlogPost.basePath server "missing" = Some shown
  /\ BlogPost.view
       (BlogPost.step BlogPost.mount
          (BlogPost.Settle (server (BlogPost.url BlogPost.basePath "missing"))))
     = BlogPost.Article shown.
Proof. cbv zeta. split; reflexivity. Qed.

(** ** Code blocks *)

Section CodeBlocks.
Import BlogPost.

Lemma execLanguage_eq (s : string) :
  execLanguage s
  = match (if JsString.startsWith "language-" s
           then match word (JsString.sliceFrom 9 s) with
                | EmptyString => None
                | w => Some w
                end
           else None) with
    | Some w => Some w
    | None => match s with
              | EmptyString => None
              | String _ r => execLanguage r
              end
    end.
Proof. destruct s; reflexivity. Qed.

Lemma prefix_split (p s : string) :
  String.prefix p s = true -> s = p ++ JsString.sliceFrom (String.length p) s.
Proof.
  revert s. induction p as [| a p IH]; intros s H.
  - destruct s; reflexivity.
  - destruct s as [| b s]; simpl in H; [discriminate |].
    destruct (ascii_dec a b) as [-> | _]; [| discriminate].
    cbn. f_equal. now apply IH.
Qed.

(** A text is its leading word followed by something that does not
    start with a word character. *)
Lemma word_split (s : string) :
  exists rest, s = word s ++ rest
               /\ JsString.forallb JsString.isWord (word s) = true
               /\ match rest with
                  | EmptyString => True
                  | String c _ => JsString.isWord c = false
                  end.
Proof.
  induction s as [| c s (rest & Hs & Hw & Hr)]; cbn [word].
  - exists EmptyString. repeat split.
  - destruct (JsString.isWord c) eqn:Ec.
    + exists rest. cbn. rewrite Ec, Hw. repeat split; [now f_equal | exact Hr].
    + exists (String c s). repeat split. exact Ec.
Qed.

Lemma word_of_word (w rest : string) :
  Claims.WordBefore w rest -> word (w ++ rest) = w.
Proof.
  intros (_ & Hw & Hr). induction w as [| c w IH]; cbn in *.
  - destruct rest as [| c r]; [reflexivity |]. cbn. now rewrite Hr.
  - apply andb_prop in Hw as [Hc Hw]. rewrite Hc. f_equal. now apply IH.
Qed.

(** What the pattern captures is a word that follows [language-]. *)
Lemma execLanguage_sound (s w : string) :
  execLanguage s = Some w ->
  exists before rest, s = before ++ "language-" ++ w ++ rest /\ Claims.WordBefore w rest.
Proof.
  induction s as [| c s IH]; rewrite execLanguage_eq.
  - cbn. discriminate.
  - destruct (JsString.startsWith "language-" (String c s)) eqn:Ep.
    + destruct (word (JsString.sliceFrom 9 (String c s))) as [| a v] eqn:Ew.
      * intros H. destruct (IH H) as (before & rest & -> & Hw).
        exists (String c before), rest. split; [reflexivity | exact Hw].
      * intros H. injection H as <-.
        apply prefix_split in Ep. change (String.length "language-") with 9%nat in Ep.
        destruct (word_split (JsString.sliceFrom 9 (String c s))) as (rest & Hs & Hall & Hr).
        rewrite Ew in Hs, Hall.
        exists EmptyString, rest. split.
        -- rewrite Hs in Ep. exact Ep.
        -- repeat split; [discriminate | exact Hall | exact Hr].
    + intros H. destruct (IH H) as (before & rest & -> & Hw).
      exists (String c before), rest. split; [reflexivity | exact Hw].
Qed.

(** The pattern matches as soon as [language-] and a word character
    occur. *)
Lemma execLanguage_complete (s : string) :
  Claims.HasLanguage s -> execLanguage s <> None.
Proof.
  intros (before & c & rest & -> & Hc).
  induction before as [| a before IH]; rewrite execLanguage_eq.
  - cbn [append]. cbn. rewrite Hc. discriminate.
  - match goal with
    | |- match ?h with _ => _ end <> None => destruct h; [discriminate | exact IH]
    end.
Qed.

Lemma execLanguage_exact (w rest : string) :
  Claims.WordBefore w rest -> execLanguage ("language-" ++ w ++ rest) = Some w.
Proof.
  intros Hw. rewrite execLanguage_eq.
  change (JsString.startsWith "language-" ("language-" ++ w ++ rest))
    with (String.prefix EmptyString (w ++ rest)).
  change (JsString.sliceFrom 9 ("language-" ++ w ++ rest)) with (w ++ rest).
  rewrite (word_of_word _ _ Hw).
  destruct Hw as (Hne & _). destruct w; [contradiction |].
  destruct (String a w ++ rest); reflexivity.
Qed.
End CodeBlocks.

(** C9: a code element whose class name holds [language-] followed by
    a word character is rendered by the syntax highlighter, with the word
    that follows [language-] as its language and the text without its final
    line break as its source; in particular the class name [language-w]
    gives the language [w].  A code element without such a class name is
    rendered as a plain [code] element with the class name and the text it
    was given. *)
Theorem C9_code_blocks (className : option string) (children : string) :
  (Claims.HasLanguage (BlogPost.orEmpty className) ->
   exists language before rest,
     BlogPost.orEmpty className = before ++ "language-" ++ language ++ rest
     /\ Claims.WordBefore language rest
     /\ BlogPost.code className children
        = BlogPost.SyntaxHighlighter language "div" (JsString.replace_nl_end children))
  /\ (~ Claims.HasLanguage (BlogPost.orEmpty className) ->
      BlogPost.code className children = BlogPost.Code className children)
  /\ (forall w rest,
         Claims.WordBefore w rest ->
         BlogPost.code (Some ("language-" ++ w ++ rest)) children
         = BlogPost.SyntaxHighlighter w "div" (JsString.replace_nl_end children)).
Proof.
  split; [| split].
  - intros H. apply execLanguage_complete in H. unfold BlogPost.code.
    destruct (BlogPost.execLanguage (BlogPost.orEmpty className)) as [w |] eqn:E; [| contradiction].
    destruct (execLanguage_sound _ _ E) as (before & rest & Hs & Hw).
    exists w, before, rest. repeat split; solve [exact Hs | apply Hw | reflexivity].
  - intros H. unfold BlogPost.code.
    destruct (BlogPost.execLanguage (BlogPost.orEmpty className)) as [w |] eqn:E; [| reflexivity].
    exfalso. apply H.
    destruct (execLanguage_sound _ _ E) as (before & rest & Hs & (Hne & Hall & _)).
    destruct w as [| c w]; [contradiction |].
    exists before, c, (w ++ rest). split; [exact Hs |].
    cbn in Hall. now apply andb_prop in Hall.
  - intros w rest Hw. unfold BlogPost.code. cbn [BlogPost.orEmpty].
    now rewrite (execLanguage_exact _ _ Hw).
Qed.

Lemma C9_code_blocks_witness :
  BlogPost.code (Some "language-js") ("const x=1;" ++ JsString.nl)
  = BlogPost.SyntaxHighlighter "js" "div" "const x=1;"
  /\ BlogPost.code None "const x=1;" = BlogPost.Code None "const x=1;".
Proof.
  split.
  - refine (proj2 (proj2 (C9_code_blocks None ("const x=1;" ++ JsString.nl))) "js" EmptyString _).
    repeat split. discriminate.
  - refine (proj1 (proj2 (C9_code_blocks None "const x=1;")) _).
    intros (before & c & rest & H & _).
    destruct before; discriminate.
Defined.

Example code_ex :
  BlogPost.code (Some "hljs language-c++") "int x;" = BlogPost.SyntaxHighlighter "c" "div" "int x;"
  /\ BlogPost.code (Some "language-") "x" = BlogPost.Code (Some "language-") "x"
  /\ BlogPost.code (Some "lang-js") "x" = BlogPost.Code (Some "lang-js") "x".
Proof. repeat split. Qed.

(** ** The two shapes of the manifest *)

(** Each reader works on the shape it expects: the list page on the
    array ... *)
Lemma BlogList_reads_the_array (ps : list BlogList.BlogPost) :
  exists ts,
    BlogList.listPosts None (Http.Resolved (Http.serveJson (Claims.manifest ps)))
    = Ok {| BlogList.strip := ts; BlogList.listed := map BlogList.toJson ps |}.
Proof.
  unfold BlogList.listPosts, BlogList.loadLocalPosts, BlogList.render, BlogList.allTags.
  cbn [Http.json Http.serveJson Claims.manifest].
  destruct (flatMapTags_typed ps) as [ts ->]. cbn. eexists; reflexivity.
Qed.


(** C6: the builder (either revision) writes the text of a JSON array.
    The home page, which reads the [posts] property of the manifest, gets
    [undefined] from that array: the sort throws, the error is caught and
    logged, and no article is listed.  The other way round, the list page,
    which reads the manifest as an array, throws on an object of any
    fields, among them one that wraps the array, and lists nothing. *)
Theorem C6_shapes_do_not_fit (root : string) (Date_parse : string -> option Z)
    (Date_toString : Z -> string) (disk : Node.FS) (fields : list (string * Json.t))
    (tag : option string) :
  (forall script,
      script = GenerateManifest.plain_main root
      \/ script = GenerateManifest.main root Date_parse Date_toString ->
      Node.exitCode (Node.run script disk) = 0 ->
      exists ps,
        Node.lookup GenerateManifest.manifestName (Node.entries (Node.disk (Node.run script disk)))
        = Some (Node.File (Json.stringify (Json.Arr (map GenerateManifest.toJson ps))))
        /\ App.fetchPosts Date_parse
             (Http.Resolved (Http.serveJson (Json.Arr (map GenerateManifest.toJson ps))))
             App.initial
           = {| App.recentPosts := [];
                App.consoleErrors :=
                  [TypeError "Cannot read properties of undefined (reading 'sort')"] |})
  /\ BlogList.listPosts tag (Http.Resolved (Http.serveJson (Json.Obj fields)))
     = Throw (BlogList.notAnArray "flatMap").
Proof.
  split; [| reflexivity].
  intros script [-> | ->] H.
  - rewrite plain_main_run in *.
    destruct (successful_ending _ _ _ H) as (ps & _ & Hfile).
    exists ps. split; [exact Hfile | reflexivity].
  - rewrite main_run in *.
    destruct (successful_ending _ _ _ H) as (ps & _ & Hfile).
    exists ps. split; [exact Hfile | reflexivity].
Qed.

Lemma C6_shapes_do_not_fit_witness :
  Node.exitCode (Node.run (GenerateManifest.plain_main "/repo") scenario) = 0
  /\ exists ps,
       Node.lookup GenerateManifest.manifestName
         (Node.entries (Node.disk (Node.run (GenerateManifest.plain_main "/repo") scenario)))
       = Some (Node.File (Json.stringify (Json.Arr (map GenerateManifest.toJson ps))))
       /\ App.fetchPosts JsDate.parse
            (Http.Resolved (Http.serveJson (Json.Arr (map GenerateManifest.toJson ps))))
            App.initial
          = {| App.recentPosts := [];
               App.consoleErrors :=
                 [TypeError "Cannot read properties of undefined (reading 'sort')"] |}.
Proof.
  assert (H : Node.exitCode (Node.run (GenerateManifest.plain_main "/repo") scenario) = 0)
    by (vm_compute; reflexivity).
  split; [exact H |].
  exact (proj1 (C6_shapes_do_not_fit "/repo" JsDate.parse JsDate.toStringUTC scenario [] None)
               (GenerateManifest.plain_main "/repo") (or_introl eq_refl) H).
Defined.

(** * Further properties of the code *)

(** ** The build as a whole *)

Lemma run_cases (root : string) (Date_parse : string -> option Z)
    (Date_toString : Z -> string) (disk : Node.FS) (script : Node.M unit) :
  script = GenerateManifest.plain_main root
  \/ script = GenerateManifest.main root Date_parse Date_toString ->
  exists r, Node.run script disk = Claims.ending root disk r.
Proof.
  intros [-> | ->]; eexists; [apply plain_main_run | apply main_run].
Qed.



Lemma lookup_store_other (name other : string) (e : Node.DirEntry)
    (entries : list (string * Node.DirEntry)) :
  other <> name ->
  Node.lookup other (Node.store name e entries) = Node.lookup other entries.
Proof.
  intros Hne. induction entries as [| [n old] entries IH]; cbn.
  - destruct (String.eqb_spec name other); [congruence | reflexivity].
  - destruct (String.eqb_spec n name) as [-> | Hn]; cbn.
    + destruct (String.eqb_spec name other); [congruence | reflexivity].
    + destruct (String.eqb n other); [reflexivity | exact IH].
Qed.

Lemma store_names (p : string -> bool) (name : string) (e : Node.DirEntry)
    (entries : list (string * Node.DirEntry)) :
  p name = false ->
  filter p (map fst (Node.store name e entries)) = filter p (map fst entries).
Proof.
  intros Hp. induction entries as [| [n old] entries IH]; cbn.
  - now rewrite Hp.
  - destruct (String.eqb n name); cbn; [reflexivity | now rewrite IH].
Qed.

Lemma store_store (name : string) (e : Node.DirEntry) (entries : list (string * Node.DirEntry)) :
  Node.store name e (Node.store name e entries) = Node.store name e entries.
Proof.
  induction entries as [| [n old] entries IH]; cbn.
  - now rewrite String.eqb_refl.
  - destruct (String.eqb n name) eqn:E; cbn; rewrite E; [reflexivity | now rewrite IH].
Qed.

Lemma successful_ending_disk (root : string) (disk : Node.FS) r :
  Node.exitCode (Claims.ending root disk r) = 0 ->
  exists ps,
    r = Ok ps
    /\ Claims.ending root disk r
       = {| Node.exitCode := 0;
            Node.out := ["Manifest written to " ++ GenerateManifest.manifestPath root];
            Node.err := [];
            Node.disk :=
              {| Node.unreadable := Node.unreadable disk;
                 Node.unwritable := Node.unwritable disk;
                 Node.entries :=
                   Node.store GenerateManifest.manifestName
                     (Node.File (Json.stringify (GenerateManifest.document ps)))
                     (Node.entries disk) |} |}
    /\ Extra.writable disk.
Proof.
  unfold Claims.ending, Extra.writable. destruct r as [ps | e]; [| cbn; discriminate].
  destruct (Node.unwritable disk) as [wcode |],
    (Node.lookup GenerateManifest.manifestName (Node.entries disk)) as [[text | code] |];
    cbn [Node.exitCode]; intros H; try discriminate;
    exists ps; repeat split; intros code'; discriminate.
Qed.

(** X2: a run of the builder that succeeds prints the one line that
    names the manifest and changes nothing but the manifest file: every
    other name of the directory leads to what it led to, and the markdown
    names are the same. *)
Theorem X2_successful_build_touches_only_the_manifest (root : string)
    (Date_parse : string -> option Z) (Date_toString : Z -> string) (disk : Node.FS)
    (script : Node.M unit) :
  script = GenerateManifest.plain_main root
  \/ script = GenerateManifest.main root Date_parse Date_toString ->
  Node.exitCode (Node.run script disk) = 0 ->
  let after := Node.disk (Node.run script disk) in
  Node.out (Node.run script disk) = ["Manifest written to " ++ GenerateManifest.manifestPath root]
  /\ Node.err (Node.run script disk) = []
  /\ (exists text, Node.lookup "manifest.json" (Node.entries after) = Some (Node.File text))
  /\ (forall name, name <> "manifest.json" ->
                   Node.lookup name (Node.entries after) = Node.lookup name (Node.entries disk))
  /\ Claims.markdownNames after = Claims.markdownNames disk
  /\ Node.unreadable after = Node.unreadable disk.
Proof.
  intros Hs. destruct (run_cases root Date_parse Date_toString disk script Hs) as [r ->].
  intros H. destruct (successful_ending_disk _ _ _ H) as (ps & _ & -> & _).
  cbn [Node.out Node.err Node.disk Node.entries Node.unreadable].
  split; [reflexivity |]. split; [reflexivity |]. split.
  - eexists. apply lookup_store.
  - split; [| split; [| reflexivity]].
    + intros name Hne. now apply lookup_store_other.
    + unfold Claims.markdownNames. cbn [Node.entries]. now apply store_names.
Qed.

Lemma X2_successful_build_touches_only_the_manifest_witness :
  let p := Node.run (GenerateManifest.main "/repo" JsDate.parse JsDate.toStringUTC) scenario in
  Node.exitCode p = 0
  /\ Node.out p = ["Manifest written to /repo/src/posts/manifest.json"]
  /\ Node.lookup "notes.txt" (Node.entries (Node.disk p)) = Some (Node.File "skip me")
  /\ Claims.markdownNames (Node.disk p) = ["a.md"; "b.md"; "c.md"].
Proof.
  intro p.
  assert (H : Node.exitCode p = 0) by (vm_compute; reflexivity).
  destruct (X2_successful_build_touches_only_the_manifest "/repo" JsDate.parse JsDate.toStringUTC
              scenario (GenerateManifest.main "/repo" JsDate.parse JsDate.toStringUTC)
              (or_intror eq_refl) H) as (Hout & _ & _ & Hother & Hnames & _).
  split; [exact H |]. split; [exact Hout |]. split.
  - unfold p. rewrite (Hother "notes.txt") by discriminate. reflexivity.
  - unfold p. rewrite Hnames. reflexivity.
Defined.

Lemma mapR_ext {A B : Type} (f g : A -> result B) (xs : list A) :
  (forall x, In x xs -> f x = g x) -> mapR f xs = mapR g xs.
Proof.
  induction xs as [| x xs IH]; intros H; cbn; [reflexivity |].
  rewrite (H x) by now left. rewrite IH; [reflexivity |].
  intros y Hy. apply H. now right.
Qed.

Lemma mapR_all_ok {A B : Type} (f : A -> result B) (xs : list A) (ys : list B) :
  mapR f xs = Ok ys -> Forall (fun x => exists y, f x = Ok y) xs.
Proof.
  intros H. apply mapR_Forall2 in H.
  induction H; constructor; eauto.
Qed.

Lemma markdown_name_is_not_the_manifest (disk : Node.FS) (n : string) :
  In n (Claims.markdownNames disk) -> n <> GenerateManifest.manifestName.
Proof.
  intros Hin ->. apply markdownNames_end_in_md in Hin. discriminate.
Qed.

(** What the builder reads does not depend on the manifest file. *)
Lemma load_after_store convert dir (disk : Node.FS) (e : Node.DirEntry) :
  mapR (Claims.load convert dir (Node.store GenerateManifest.manifestName e (Node.entries disk)))
       (Claims.markdownNames disk)
  = mapR (Claims.load convert dir (Node.entries disk)) (Claims.markdownNames disk).
Proof.
  apply mapR_ext. intros n Hn. unfold Claims.load.
  rewrite lookup_store_other; [reflexivity |].
  exact (markdown_name_is_not_the_manifest disk n Hn).
Qed.

Lemma rebuilt_ending (root : string) (disk : Node.FS) r :
  Node.exitCode (Claims.ending root disk r) = 0 ->
  Claims.ending root (Node.disk (Claims.ending root disk r)) r = Claims.ending root disk r.
Proof.
  intros H. destruct (successful_ending_disk _ _ _ H) as (ps & -> & E & Hw & _).
  rewrite E. cbn [Node.disk]. unfold Claims.ending at 1.
  cbn [Node.entries Node.unreadable Node.unwritable].
  rewrite Hw, lookup_store, store_store. reflexivity.
Qed.

(** X3: building again changes nothing: a run of the builder on the
    directory left by a successful run succeeds again and writes the same
    manifest; the manifest file is never taken for a post. *)
Theorem X3_rebuild_is_idempotent (root : string) (Date_parse : string -> option Z)
    (Date_toString : Z -> string) (disk : Node.FS) (script : Node.M unit) :
  script = GenerateManifest.plain_main root
  \/ script = GenerateManifest.main root Date_parse Date_toString ->
  Node.exitCode (Node.run script disk) = 0 ->
  Node.run script (Node.disk (Node.run script disk)) = Node.run script disk.
Proof.
  intros [-> | ->] H.
  - rewrite plain_main_run in H |- *.
    destruct (successful_ending_disk _ _ _ H) as (ps & Hps & E & _).
    rewrite plain_main_run.
    replace (fst (GenerateManifest.plain_posts root
                    {| Node.fs := Node.disk (Claims.ending root disk _); Node.stdout := [] |}))
      with (fst (GenerateManifest.plain_posts root {| Node.fs := disk; Node.stdout := [] |})).
    + now apply rebuilt_ending.
    + rewrite E. rewrite !plain_posts_run. cbn [fst Node.fs Node.disk].
      unfold Claims.listing, Claims.markdownNames. cbn [Node.unreadable Node.entries].
      destruct (Node.unreadable disk); [reflexivity |]. cbn [bind].
      rewrite store_names by reflexivity.
      symmetry. apply (load_after_store GenerateManifest.plain_entry).
  - rewrite main_run in H |- *.
    destruct (successful_ending_disk _ _ _ H) as (ps & Hps & E & _).
    rewrite main_run.
    replace (fst (GenerateManifest.posts root Date_parse Date_toString
                    {| Node.fs := Node.disk (Claims.ending root disk _); Node.stdout := [] |}))
      with (fst (GenerateManifest.posts root Date_parse Date_toString
                   {| Node.fs := disk; Node.stdout := [] |})).
    + now apply rebuilt_ending.
    + rewrite E. rewrite !posts_run. cbn [fst Node.fs Node.disk].
      unfold Claims.listing, Claims.markdownNames. cbn [Node.unreadable Node.entries].
      destruct (Node.unreadable disk); [reflexivity |]. cbn [bind].
      rewrite store_names by reflexivity.
      f_equal. symmetry. apply (load_after_store (GenerateManifest.entry Date_toString)).
Qed.

Lemma X3_rebuild_is_idempotent_witness :
  let script := GenerateManifest.main "/repo" JsDate.parse JsDate.toStringUTC in
  Node.exitCode (Node.run script scenario) = 0
  /\ Node.run script (Node.disk (Node.run script scenario)) = Node.run script scenario.
Proof.
  intro script.
  assert (H : Node.exitCode (Node.run script scenario) = 0) by (vm_compute; reflexivity).
  split; [exact H |].
  exact (X3_rebuild_is_idempotent "/repo" JsDate.parse JsDate.toStringUTC scenario script
           (or_intror eq_refl) H).
Defined.

Lemma ending_succeeds_iff (root : string) (disk : Node.FS) r :
  Node.exitCode (Claims.ending root disk r) = 0
  <-> (exists ps, r = Ok ps) /\ Extra.writable disk.
Proof.
  split.
  - intros H. destruct (successful_ending_disk _ _ _ H) as (ps & -> & _ & Hw).
    split; [now exists ps | exact Hw].
  - intros [[ps ->] [Hw Hfile]]. unfold Claims.ending. rewrite Hw.
    destruct (Node.lookup GenerateManifest.manifestName (Node.entries disk)) as [[text | code] |] eqn:E;
      try reflexivity.
    exfalso. exact (Hfile code eq_refl).
Qed.

(** X4: the builder (either revision) succeeds exactly when the posts
    directory can be listed, every name in it that ends in [.md] is a file
    that can be read and whose header loads, and the manifest can be
    written; one markdown name that fails is enough to fail the build. *)
Theorem X4_build_succeeds_iff (root : string) (Date_parse : string -> option Z)
    (Date_toString : Z -> string) (disk : Node.FS) :
  (Node.exitCode (Node.run (GenerateManifest.main root Date_parse Date_toString) disk) = 0
   <-> Node.unreadable disk = None
       /\ Extra.allLoad (GenerateManifest.entry Date_toString) root disk
       /\ Extra.writable disk)
  /\ (Node.exitCode (Node.run (GenerateManifest.plain_main root) disk) = 0
      <-> Node.unreadable disk = None
          /\ Extra.allLoad GenerateManifest.plain_entry root disk
          /\ Extra.writable disk).
Proof.
  split.
  - rewrite main_run, ending_succeeds_iff, posts_run. cbn [fst Node.fs].
    unfold Claims.listing, Extra.allLoad.
    destruct (Node.unreadable disk) as [code |]; cbn [bind].
    + split; [intros [[ps Hps] _]; discriminate | intros [H _]; discriminate].
    + split.
      * intros [[ps Hps] Hw]. split; [reflexivity |]. split; [| exact Hw].
        destruct (mapR _ _) as [us | e] eqn:Hmap; [| discriminate].
        exact (mapR_all_ok _ _ _ Hmap).
      * intros (_ & Hall & Hw). split; [| exact Hw].
        destruct (mapR_total _ _ Hall) as [us ->]. cbn. eexists; reflexivity.
  - rewrite plain_main_run, ending_succeeds_iff, plain_posts_run. cbn [fst Node.fs].
    unfold Claims.listing, Extra.allLoad.
    destruct (Node.unreadable disk) as [code |]; cbn [bind].
    + split; [intros [[ps Hps] _]; discriminate | intros [H _]; discriminate].
    + split.
      * intros [[ps Hps] Hw]. split; [reflexivity |]. split; [| exact Hw].
        exact (mapR_all_ok _ _ _ Hps).
      * intros (_ & Hall & Hw). split; [| exact Hw].
        destruct (mapR_total _ _ Hall) as [us ->]. eexists; reflexivity.
Qed.

Lemma X4_build_succeeds_iff_witness :
  Node.exitCode (Node.run (GenerateManifest.main "/repo" JsDate.parse JsDate.toStringUTC) scenario) = 0
  /\ Node.unreadable scenario = None
  /\ Extra.allLoad (GenerateManifest.entry JsDate.toStringUTC) "/repo" scenario
  /\ Extra.writable scenario.
Proof.
  assert (H : Node.exitCode
                (Node.run (GenerateManifest.main "/repo" JsDate.parse JsDate.toStringUTC) scenario) = 0)
    by (vm_compute; reflexivity).
  split; [exact H |].
  exact (proj1 (proj1 (X4_build_succeeds_iff "/repo" JsDate.parse JsDate.toStringUTC scenario)) H).
Defined.

(** ** The entries *)

Lemma truthy_or (a b : JsValue) : Js.truthy (Js.or a b) = Js.truthy a || Js.truthy b.
Proof. unfold Js.or. destruct (Js.truthy a) eqn:E; [now rewrite E | reflexivity]. Qed.

Lemma or_defined (a : JsValue) (b : JsValue) : b <> JUndefined -> Js.or a b <> JUndefined.
Proof.
  intros Hb. unfold Js.or. destruct (Js.truthy a) eqn:E; [| exact Hb].
  intros ->. discriminate.
Qed.

Lemma slice0_length (n : nat) (s : string) : (String.length (JsString.slice0 n s) <= n)%nat.
Proof.
  revert s. induction n as [| n IH]; intros [| c s]; cbn; try lia.
  specialize (IH s). lia.
Qed.

(** X5: every entry the second revision makes for a markdown file has a
    title and tags that are not empty values, a date that is a text of at
    most ten characters, and the name of the file; its slug is not empty
    either, unless the file is named [.md] and declares no slug. *)
Theorem X5_entry_invariants (Date_toString : Z -> string) (filename : string)
    (attributes : Js.object) :
  JsString.endsWith ".md" filename = true ->
  let p := GenerateManifest.post Date_toString filename attributes in
  Js.truthy (GenerateManifest.title p) = true
  /\ Js.truthy (GenerateManifest.tags p) = true
  /\ (exists s, GenerateManifest.date p = JStr s /\ (String.length s <= 10)%nat)
  /\ GenerateManifest.filename p = filename
  /\ (filename <> ".md" -> Js.truthy (GenerateManifest.slug p) = true).
Proof.
  intros Hmd p. unfold p, GenerateManifest.post.
  cbn [GenerateManifest.title GenerateManifest.tags GenerateManifest.date
       GenerateManifest.filename GenerateManifest.slug].
  rewrite !truthy_or. cbn [Js.truthy].
  split; [| split; [| split; [| split]]].
  - destruct filename; [discriminate |]. apply orb_true_r.
  - apply orb_true_r.
  - eexists. split; [reflexivity |].
    unfold GenerateManifest.dateStr.
    destruct (Js.get attributes "date"); try destruct (Js.truthy _);
      solve [apply slice0_length | cbn; lia].
  - reflexivity.
  - intros Hne. unfold JsString.replace_md_end. rewrite Hmd.
    pose proof (endsWith_stem ".md" filename Hmd) as E.
    destruct (JsString.slice0 (String.length filename - String.length ".md") filename) eqn:Es.
    + exfalso. apply Hne. exact E.
    + change (String.length ".md") with 3%nat in Es. rewrite Es. apply orb_true_r.
Qed.

Lemma X5_entry_invariants_witness :
  let p := GenerateManifest.post JsDate.toStringUTC "a.md"
             [("title", JStr EmptyString); ("date", JStr "the first of January 2025")] in
  Js.truthy (GenerateManifest.title p) = true
  /\ Js.truthy (GenerateManifest.tags p) = true
  /\ (exists s, GenerateManifest.date p = JStr s /\ (String.length s <= 10)%nat)
  /\ GenerateManifest.filename p = "a.md"
  /\ ("a.md" <> ".md" -> Js.truthy (GenerateManifest.slug p) = true).
Proof.
  exact (X5_entry_invariants JsDate.toStringUTC "a.md"
           [("title", JStr EmptyString); ("date", JStr "the first of January 2025")] eq_refl).
Defined.

Lemma property_defined (key : string) (v : JsValue) :
  v <> JUndefined -> map fst (Json.property key v) = [key].
Proof.
  intros H. unfold Json.property. destruct v; try contradiction; reflexivity.
Qed.

(** X6: every entry either revision writes has the five fields [title],
    [date], [slug], [filename] and [tags], in that order, whatever the file
    declares: no field is ever left out of the manifest. *)
Theorem X6_entries_have_all_fields (Date_toString : Z -> string) (filename : string)
    (attributes : Js.object) :
  Extra.keys (GenerateManifest.toJson (GenerateManifest.post Date_toString filename attributes))
  = ["title"; "date"; "slug"; "filename"; "tags"]
  /\ Extra.keys (GenerateManifest.toJson (GenerateManifest.plain_post filename attributes))
     = ["title"; "date"; "slug"; "filename"; "tags"].
Proof.
  unfold Extra.keys, GenerateManifest.toJson, GenerateManifest.post, GenerateManifest.plain_post.
  cbn [GenerateManifest.title GenerateManifest.tags GenerateManifest.date
       GenerateManifest.filename GenerateManifest.slug].
  rewrite !map_app, !property_defined; try (apply or_defined); try discriminate.
  split; reflexivity.
Qed.

(** X7: the slug an entry gets when the file declares none leads the
    post view back to the file: the URL it fetches for that slug is the
    posts path followed by the file name. *)
Theorem X7_default_slug_leads_to_the_file (Date_toString : Z -> string) (filename : string)
    (attributes : Js.object) :
  JsString.endsWith ".md" filename = true ->
  Js.truthy (Js.get attributes "slug") = false ->
  exists slug,
    GenerateManifest.slug (GenerateManifest.post Date_toString filename attributes) = JStr slug
    /\ GenerateManifest.slug (GenerateManifest.plain_post filename attributes) = JStr slug
    /\ BlogPost.url BlogPost.basePath slug = "/the-orchestration-layer/src/posts/" ++ filename.
Proof.
  intros Hmd Hslug.
  pose proof (endsWith_stem ".md" filename Hmd) as E.
  change (String.length ".md") with 3%nat in E.
  exists (JsString.slice0 (String.length filename - 3) filename).
  unfold GenerateManifest.post, GenerateManifest.plain_post, Js.or, JsString.replace_md_end.
  cbn [GenerateManifest.slug]. rewrite Hslug, Hmd.
  split; [reflexivity |]. split; [reflexivity |].
  remember (JsString.slice0 (String.length filename - 3) filename) as stem.
  rewrite E. reflexivity.
Qed.

Lemma X7_default_slug_leads_to_the_file_witness :
  exists slug,
    GenerateManifest.slug
      (GenerateManifest.post JsDate.toStringUTC "markdown-react-vite.md" [("title", JStr "T")])
    = JStr slug
    /\ GenerateManifest.slug (GenerateManifest.plain_post "markdown-react-vite.md" [("title", JStr "T")])
       = JStr slug
    /\ BlogPost.url BlogPost.basePath slug
       = "/the-orchestration-layer/src/posts/" ++ "markdown-react-vite.md".
Proof.
  exact (X7_default_slug_leads_to_the_file JsDate.toStringUTC "markdown-react-vite.md"
           [("title", JStr "T")] eq_refl eq_refl).
Defined.

(** ** The home page *)











(** ** The list page *)

Lemma flatMapTags_tagsOf (ps : list BlogList.BlogPost) :
  BlogList.flatMapTags (map BlogList.toJson ps) = Ok (map Json.Str (Extra.tagsOf ps)).
Proof.
  induction ps as [| p ps IH]; cbn [map BlogList.flatMapTags Extra.tagsOf flat_map]; [reflexivity |].
  unfold BlogList.tagsOrEmpty. rewrite field_tags, IH. cbn [bind].
  fold (Extra.tagsOf ps). rewrite map_app.
  destruct (BlogList.tags p); reflexivity.
Qed.

Lemma render_typed (tag : option string) (ps : list BlogList.BlogPost) :
  BlogList.render tag (Claims.manifest ps)
  = Ok {| BlogList.strip := BlogList.distinct [] (map Json.Str (Extra.tagsOf ps));
          BlogList.listed := map BlogList.toJson (Extra.shown tag ps) |}.
Proof.
  unfold BlogList.render, BlogList.allTags, Claims.manifest.
  rewrite flatMapTags_tagsOf. cbn [bind].
  unfold BlogList.filteredPosts, Extra.shown.
  destruct tag as [t |]; [| reflexivity].
  destruct (JsString.isEmpty t); [reflexivity |].
  now rewrite filterM_typed.
Qed.

(** The set keeps the first occurrence of every text and nothing else. *)
Lemma distinct_strings (seen l : list string) :
  exists out,
    BlogList.distinct (map Json.Str seen) (map Json.Str l) = map Json.Str out
    /\ NoDup out
    /\ (forall t, In t out <-> In t l /\ ~ In t seen)
    /\ Claims.Subsequence out l.
Proof.
  revert seen. induction l as [| x l IH]; intros seen.
  - exists []. split; [reflexivity |]. split; [constructor |]. split; [| constructor].
    intros t. cbn. tauto.
  - cbn [map BlogList.distinct]. rewrite existsb_tag.
    destruct (existsb (String.eqb x) seen) eqn:E.
    + destruct (IH seen) as (out & Hd & Hn & Hin & Hs).
      exists out. split; [exact Hd |]. split; [exact Hn |]. split; [| now constructor].
      intros t. rewrite Hin. cbn. split; [tauto |].
      intros [[<- | H] Hns]; [| tauto]. exfalso. apply Hns.
      apply existsb_exists in E as (y & Hy & Heq). apply String.eqb_eq in Heq. now subst y.
    + destruct (IH (x :: seen)) as (out & Hd & Hn & Hin & Hs).
      exists (x :: out). cbn [map] in Hd |- *. rewrite Hd.
      split; [reflexivity |].
      assert (Hx : ~ In x seen).
      { intros H. assert (existsb (String.eqb x) seen = true); [| congruence].
        apply existsb_exists. exists x. split; [exact H | apply String.eqb_refl]. }
      split; [| split; [| now constructor]].
      * constructor; [| exact Hn]. intros H. apply Hin in H. cbn in H. tauto.
      * intros t. cbn. rewrite Hin. cbn.
        destruct (string_dec x t) as [<- | Hne]; tauto.
Qed.

Lemma tagsOf_Carries (ps : list BlogList.BlogPost) (t : string) :
  In t (Extra.tagsOf ps) <-> exists p, In p ps /\ Claims.Carries t p.
Proof.
  unfold Extra.tagsOf, Claims.Carries. rewrite in_flat_map. split.
  - intros (p & Hp & Ht). exists p. split; [exact Hp |].
    destruct (BlogList.tags p) as [ts |]; [now exists ts | contradiction].
  - intros (p & Hp & ts & Hts & Ht). exists p. split; [exact Hp |]. now rewrite Hts.
Qed.

Lemma listPosts_manifest (tag : option string) (ps : list BlogList.BlogPost) :
  BlogList.listPosts tag (Http.Resolved (Http.serveJson (Claims.manifest ps)))
  = Ok {| BlogList.strip := BlogList.distinct [] (map Json.Str (Extra.tagsOf ps));
          BlogList.listed := map BlogList.toJson (Extra.shown tag ps) |}.
Proof.
  unfold BlogList.listPosts, BlogList.loadLocalPosts. cbn [Http.json Http.serveJson].
  apply render_typed.
Qed.

(** X10: for a manifest of entries of the declared shape and whatever
    the selected tag, the tag strip of the list page holds every tag that
    some entry carries, each of them once, in the order in which the
    entries first bring them up. *)
Theorem X10_tag_strip (tag : option string) (ps : list BlogList.BlogPost) :
  exists tags,
    BlogList.listPosts tag (Http.Resolved (Http.serveJson (Claims.manifest ps)))
    = Ok {| BlogList.strip := map Json.Str tags;
            BlogList.listed := map BlogList.toJson (Extra.shown tag ps) |}
    /\ NoDup tags
    /\ (forall t, In t tags <-> exists p, In p ps /\ Claims.Carries t p)
    /\ Claims.Subsequence tags (Extra.tagsOf ps).
Proof.
  destruct (distinct_strings [] (Extra.tagsOf ps)) as (out & Hd & Hn & Hin & Hs).
  exists out. split.
  - rewrite listPosts_manifest. cbn [map] in Hd. now rewrite Hd.
  - split; [exact Hn |]. split; [| exact Hs].
    intros t. rewrite Hin, <- tagsOf_Carries. cbn. tauto.
Qed.

Lemma map_Str_In (t : string) (l : list string) : In (Json.Str t) (map Json.Str l) -> In t l.
Proof.
  intros H. apply in_map_iff in H as (x & Hx & Hin). now injection Hx as ->.
Qed.

(** X11: a tag of the strip, once selected, always shows at least one
    post: for a manifest of entries of the declared shape and a tag of the
    strip that is not empty, the page filtered by that tag keeps the same
    strip and lists one entry or more, each of them on the unfiltered
    page. *)
Theorem X11_strip_tags_select_posts (ps : list BlogList.BlogPost) (all : BlogList.View)
    (t : string) :
  BlogList.listPosts None (Http.Resolved (Http.serveJson (Claims.manifest ps))) = Ok all ->
  In (Json.Str t) (BlogList.strip all) ->
  t <> EmptyString ->
  exists filtered,
    BlogList.listPosts (Some t) (Http.Resolved (Http.serveJson (Claims.manifest ps)))
    = Ok filtered
    /\ BlogList.strip filtered = BlogList.strip all
    /\ BlogList.listed filtered <> []
    /\ forall x, In x (BlogList.listed filtered) -> In x (BlogList.listed all).
Proof.
  intros Hall Hin Ht.
  rewrite listPosts_manifest in Hall. injection Hall as <-.
  cbn [BlogList.strip BlogList.listed Extra.shown] in *.
  eexists. split; [apply listPosts_manifest |]. cbn [BlogList.strip BlogList.listed].
  assert (Hshown : Extra.shown (Some t) ps = filter (Claims.carries t) ps).
  { cbn. destruct t; [contradiction | reflexivity]. }
  rewrite Hshown. split; [reflexivity |]. split.
  - destruct (distinct_strings [] (Extra.tagsOf ps)) as (out & Hd & _ & Hout & _).
    cbn [map] in Hd. rewrite Hd in Hin.
    apply map_Str_In, Hout in Hin. destruct Hin as [Hin _].
    apply tagsOf_Carries in Hin. destruct Hin as (p & Hp & Hc).
    intros E. apply map_eq_nil in E.
    assert (Hf : In p (filter (Claims.carries t) ps))
      by (apply filter_In; split; [exact Hp | now apply carries_Carries]).
    rewrite E in Hf. contradiction.
  - intros x Hx. apply in_map_iff in Hx as (p & <- & Hp). apply in_map.
    apply filter_In in Hp. tauto.
Qed.

Lemma X11_strip_tags_select_posts_witness :
  let post name ts :=
    {| BlogList.title := name; BlogList.date := "2025-12-02"; BlogList.slug := name;
       BlogList.content := None; BlogList.filename := name ++ ".md";
       BlogList.tags := ts |} in
  let ps := [post "one" (Some ["azure"; "devops"]); post "two" None;
             post "three" (Some ["devops"; "react"])] in
  exists filtered,
    BlogList.listPosts (Some "devops") (Http.Resolved (Http.serveJson (Claims.manifest ps)))
    = Ok filtered
    /\ BlogList.strip filtered = [Json.Str "azure"; Json.Str "devops"; Json.Str "react"]
    /\ BlogList.listed filtered <> [].
Proof.
  intros post ps.
  destruct (X11_strip_tags_select_posts ps
              {| BlogList.strip := [Json.Str "azure"; Json.Str "devops"; Json.Str "react"];
                 BlogList.listed := map BlogList.toJson ps |} "devops")
    as (filtered & Hf & Hs & Hl & _).
  - reflexivity.
  - cbn. tauto.
  - discriminate.
  - exists filtered. split; [exact Hf |]. split; [exact Hs | exact Hl].
Defined.

(** X12: when the fetch of the manifest fails, because no response
    arrives or because the body is not JSON, the list page shows an empty
    strip and no post, whatever the selected tag, and raises nothing. *)
Theorem X12_failed_manifest_fetch_lists_nothing (tag : option string) (f : Http.Fetch) :
  match f with
  | Http.Rejected _ => True
  | Http.Resolved res => exists e, Http.json res = Throw e
  end ->
  BlogList.listPosts tag f = Ok {| BlogList.strip := []; BlogList.listed := [] |}.
Proof.
  intros H. unfold BlogList.listPosts, BlogList.loadLocalPosts.
  assert (E : BlogList.render tag BlogList.initialPosts
              = Ok {| BlogList.strip := []; BlogList.listed := [] |}).
  { destruct tag as [[| c t] |]; reflexivity. }
  destruct f as [e | res]; [exact E |].
  destruct H as [e ->]. exact E.
Qed.

Lemma X12_failed_manifest_fetch_lists_nothing_witness :
  BlogList.listPosts (Some "azure") (Http.Resolved (Http.notFound "<html>Not Found</html>"))
  = Ok {| BlogList.strip := []; BlogList.listed := [] |}
  /\ BlogList.listPosts None (Http.Rejected (TypeError "Failed to fetch"))
     = Ok {| BlogList.strip := []; BlogList.listed := [] |}.
Proof.
  split.
  - apply X12_failed_manifest_fetch_lists_nothing. eexists; reflexivity.
  - apply X12_failed_manifest_fetch_lists_nothing. exact I.
Defined.

(** ** What the pages show of a date *)

Lemma noSpace_app (a b : string) :
  Display.noSpace (a ++ b) = Display.noSpace a && Display.noSpace b.
Proof.
  unfold Display.noSpace. induction a as [| c a IH]; cbn; [reflexivity |].
  rewrite IH. apply andb_assoc.
Qed.

Lemma char_of_digit_not_space (z : Z) : Ascii.eqb (JsString.char_of_digit z) " " = false.
Proof.
  destruct (Ascii.eqb_spec (JsString.char_of_digit z) " ") as [E | _]; [| reflexivity].
  pose proof (digit_of_char_of_digit z) as H. rewrite E in H. discriminate.
Qed.

Lemma noSpace_fixed_digits (n : nat) (z : Z) : Display.noSpace (JsString.fixed_digits n z) = true.
Proof.
  revert z. induction n as [| n IH]; intro z; cbn [JsString.fixed_digits]; [reflexivity |].
  rewrite noSpace_app, IH. cbn. now rewrite char_of_digit_not_space.
Qed.

Lemma noSpace_ymd (y m d : Z) : Display.noSpace (JsDate.ymd y m d) = true.
Proof.
  unfold JsDate.ymd. rewrite !noSpace_app, !noSpace_fixed_digits. reflexivity.
Qed.

Lemma noSpace_toISOString (t : Z) : Display.noSpace (JsDate.toISOString t) = true.
Proof.
  unfold JsDate.toISOString. rewrite !noSpace_app, !noSpace_fixed_digits.
  destruct ((0 <=? JsDate.YearFromTime t) && (JsDate.YearFromTime t <=? 9999)).
  - now rewrite noSpace_fixed_digits.
  - rewrite noSpace_app, noSpace_fixed_digits. destruct (JsDate.YearFromTime t <? 0); reflexivity.
Qed.

(** A text without a space is its own and only part. *)
Lemma split_noSpace (s : string) : Display.noSpace s = true -> JsString.split " " s = [s].
Proof.
  unfold Display.noSpace. induction s as [| c s IH]; cbn; [reflexivity |].
  intros H. apply andb_prop in H as [Hc Hs]. apply negb_true_iff in Hc.
  rewrite Hc, (IH Hs). reflexivity.
Qed.

Lemma split_app (a r : string) :
  Display.noSpace a = true -> JsString.split " " (a ++ " " ++ r) = a :: JsString.split " " r.
Proof.
  unfold Display.noSpace. induction a as [| c a IH]; cbn; [reflexivity |].
  intros H. apply andb_prop in H as [Hc Hs]. apply negb_true_iff in Hc.
  rewrite Hc. cbn in IH. now rewrite (IH Hs).
Qed.

Lemma ofValue_defined (v : JsValue) : v <> JUndefined -> exists j, Json.ofValue v = Some j.
Proof. destruct v; try contradiction; eexists; reflexivity. Qed.

Lemma dateOf_entry (title date slug tags : JsValue) (filename s : string) :
  title <> JUndefined ->
  Json.ofValue date = Some (Json.Str s) ->
  App.dateOf (GenerateManifest.toJson
                {| GenerateManifest.title := title; GenerateManifest.date := date;
                   GenerateManifest.slug := slug; GenerateManifest.filename := filename;
                   GenerateManifest.tags := tags |})
  = Some (Json.Str s).
Proof.
  intros Ht Hd. destruct (ofValue_defined title Ht) as [j Hj].
  unfold GenerateManifest.toJson, Json.property.
  cbn [GenerateManifest.title GenerateManifest.date]. rewrite Hj, Hd. reflexivity.
Qed.

(** X13: what the list page prints under a title is the date up to its
    first space.  For an entry built from a [Date] whose UTC year lies
    between 0 and 9999 this is the whole date: [YYYY-MM-DD] for the revision
    that normalises dates, the full ISO text of the instant for the one that
    does not.  For any entry whose date is a text without a space it is that
    text. *)
Theorem X13_list_page_date (Date_toString : Z -> string) (filename : string)
    (attributes : Js.object) (t : Z) :
  Js.get attributes "date" = JDate t ->
  0 <= JsDate.YearFromTime t <= 9999 ->
  Display.listDate
    (GenerateManifest.toJson (GenerateManifest.post Date_toString filename attributes))
  = JsDate.ymd (JsDate.YearFromTime t) (JsDate.MonthFromTime t + 1) (JsDate.DateFromTime t)
  /\ Display.listDate (GenerateManifest.toJson (GenerateManifest.plain_post filename attributes))
     = JsDate.toISOString t
  /\ forall (p : BlogList.BlogPost),
       Display.noSpace (BlogList.date p) = true ->
       Display.listDate (BlogList.toJson p) = BlogList.date p.
Proof.
  intros Hget Hy. unfold Display.listDate, Display.dateText, Display.part.
  split; [| split].
  - unfold GenerateManifest.post. rewrite Hget.
    rewrite (dateOf_entry _ _ _ _ _ (GenerateManifest.dateStr Date_toString (JDate t)));
      [| apply or_defined; discriminate | reflexivity].
    cbn [App.toString GenerateManifest.dateStr]. rewrite (toISOString_date _ Hy).
    now rewrite split_noSpace by apply noSpace_ymd.
  - unfold GenerateManifest.plain_post. rewrite Hget. cbn [Js.or Js.truthy].
    rewrite (dateOf_entry _ _ _ _ _ (JsDate.toISOString t));
      [| apply or_defined; discriminate | reflexivity].
    cbn [App.toString]. now rewrite split_noSpace by apply noSpace_toISOString.
  - intros p Hp. unfold BlogList.toJson. cbn [App.dateOf Json.field String.eqb Ascii.eqb Bool.eqb].
    cbn [App.toString]. now rewrite split_noSpace.
Qed.

Lemma X13_list_page_date_witness :
  let attributes := [("title", JStr "T"); ("date", JDate (JsDate.UTC 2025 11 28))] in
  0 <= JsDate.YearFromTime (JsDate.UTC 2025 11 28) <= 9999
  /\ Display.listDate
       (GenerateManifest.toJson (GenerateManifest.post JsDate.toStringUTC "a.md" attributes))
     = "2025-12-28"
  /\ Display.listDate (GenerateManifest.toJson (GenerateManifest.plain_post "a.md" attributes))
     = "2025-12-28T00:00:00.000Z".
Proof.
  intro attributes.
  assert (Hy : 0 <= JsDate.YearFromTime (JsDate.UTC 2025 11 28) <= 9999)
    by (vm_compute; split; discriminate).
  destruct (X13_list_page_date JsDate.toStringUTC "a.md" attributes (JsDate.UTC 2025 11 28)
              eq_refl Hy) as (H1 & H2 & _).
  split; [exact Hy |]. split; [exact H1 | exact H2].
Defined.

Lemma noSpace_dayName (w : Z) : Display.noSpace (JsDate.dayName w) = true.
Proof.
  unfold JsDate.dayName.
  repeat match goal with
         | |- context [match ?x with _ => _ end] => destruct x
         end; reflexivity.
Qed.

Lemma noSpace_monthName (m : Z) : Display.noSpace (JsDate.monthName m) = true.
Proof.
  unfold JsDate.monthName.
  repeat match goal with
         | |- context [match ?x with _ => _ end] => destruct x
         end; reflexivity.
Qed.

(** X14: the date line of the post view joins the first four parts of
    the date's text.  For a [Date] (an unquoted date of the header) whose
    UTC year lies between 0 and 9999, on a host in UTC, these are the day of
    the week, the month, the day and the year.  For a date that is a text
    without a space (a quoted date) only the first part exists: the line is
    the text followed by three times [undefined]; for a post without a date
    it is four times [undefined]. *)
Theorem X14_post_view_date_line (p : BlogPost.Post) :
  (forall t,
      BlogPost.date p = JDate t ->
      0 <= JsDate.YearFromTime t <= 9999 ->
      Display.dateLine JsDate.toStringUTC p
      = JsDate.dayName (JsDate.WeekDay t) ++ " " ++ JsDate.monthName (JsDate.MonthFromTime t)
          ++ " " ++ JsString.fixed_digits 2 (JsDate.DateFromTime t)
          ++ " " ++ JsString.fixed_digits 4 (JsDate.YearFromTime t))
  /\ (forall Date_toString s,
         BlogPost.date p = JStr s ->
         Display.noSpace s = true ->
         Display.dateLine Date_toString p = s ++ " undefined undefined undefined")
  /\ (forall Date_toString,
         BlogPost.date p = JUndefined ->
         Display.dateLine Date_toString p = "undefined undefined undefined undefined").
Proof.
  split; [| split].
  - intros t Hd _. unfold Display.dateLine, Display.part. rewrite Hd.
    cbn [Js.ToString]. unfold JsDate.toStringUTC.
    rewrite split_app by apply noSpace_dayName.
    rewrite split_app by apply noSpace_monthName.
    rewrite split_app by apply noSpace_fixed_digits.
    rewrite split_app by apply noSpace_fixed_digits.
    reflexivity.
  - intros toStr s Hd Hs. unfold Display.dateLine, Display.part. rewrite Hd.
    cbn [Js.ToString]. rewrite (split_noSpace s Hs). reflexivity.
  - intros toStr Hd. unfold Display.dateLine. rewrite Hd. reflexivity.
Qed.

Lemma X14_post_view_date_line_witness :
  Display.dateLine JsDate.toStringUTC
    {| BlogPost.title := JStr "T"; BlogPost.date := JDate (JsDate.UTC 2025 11 28);
       BlogPost.content := "text" |}
  = "Sun Dec 28 2025"
  /\ Display.dateLine JsDate.toStringUTC
       {| BlogPost.title := JStr "X"; BlogPost.date := JStr "2025-01-02";
          BlogPost.content := "Hello" |}
     = "2025-01-02 undefined undefined undefined".
Proof.
  split.
  - refine (proj1 (X14_post_view_date_line
                     {| BlogPost.title := JStr "T"; BlogPost.date := JDate (JsDate.UTC 2025 11 28);
                        BlogPost.content := "text" |})
                  (JsDate.UTC 2025 11 28) eq_refl _).
    vm_compute. split; discriminate.
  - exact (proj1 (proj2 (X14_post_view_date_line
                           {| BlogPost.title := JStr "X"; BlogPost.date := JStr "2025-01-02";
                              BlogPost.content := "Hello" |}))
                 JsDate.toStringUTC "2025-01-02" eq_refl eq_refl).
Defined.

(** ** The theme *)

Lemma clicks_from_theme (n : nat) (t : string) :
  t = "paper" \/ t = "dark" ->
  Display.clicks n t = if Nat.even n then t else Display.toggleTheme t.
Proof.
  revert t. induction n as [| n IH]; intros t Ht; [reflexivity |].
  cbn [Display.clicks]. rewrite IH by (destruct Ht as [-> | ->]; cbn; tauto).
  rewrite Nat.even_succ, <- Nat.negb_even.
  destruct (Nat.even n); cbn [negb]; [reflexivity |].
  destruct Ht as [-> | ->]; reflexivity.
Qed.

(** X15: the theme starts as [paper] and the button switches between
    [paper] and [dark]: after an even number of clicks it is [paper], after
    an odd number [dark].  Whatever the theme was, one click makes it one of
    the two. *)
Theorem X15_theme_toggle (n : nat) (t : string) :
  Display.clicks n Display.initialTheme = (if Nat.even n then "paper" else "dark")
  /\ (Display.toggleTheme t = "paper" \/ Display.toggleTheme t = "dark")
  /\ Display.toggleTheme (Display.toggleTheme (Display.toggleTheme t)) = Display.toggleTheme t.
Proof.
  split; [| split].
  - rewrite clicks_from_theme by (left; reflexivity). destruct (Nat.even n); reflexivity.
  - unfold Display.toggleTheme. destruct (String.eqb t "dark"); tauto.
  - unfold Display.toggleTheme. destruct (String.eqb t "dark"); reflexivity.
Qed.

(** ** The source of a highlighted block *)

Lemma slice0_app (s t : string) : JsString.slice0 (String.length s) (s ++ t) = s.
Proof. induction s as [| c s IH]; cbn; [destruct t; reflexivity | now rewrite IH]. Qed.

Lemma sliceFrom_app (s t : string) : JsString.sliceFrom (String.length s) (s ++ t) = t.
Proof. induction s as [| c s IH]; cbn; [destruct t; reflexivity | exact IH]. Qed.

(** Exactly one final line break is removed. *)
Lemma replace_nl_end_app (s : string) : JsString.replace_nl_end (s ++ JsString.nl) = s.
Proof.
  unfold JsString.replace_nl_end, JsString.endsWith.
  rewrite length_app. cbn [String.length JsString.nl].
  replace (String.length s + 1 - 1)%nat with (String.length s) by lia.
  rewrite sliceFrom_app, slice0_app.
  replace (1 <=? String.length s + 1)%nat with true by (symmetry; apply Nat.leb_le; lia).
  reflexivity.
Qed.

(** X16: the highlighter gets the text of the block without its final
    line break, and only that one: of two final line breaks one stays, and a
    text that does not end in a line break is passed as it is. *)
Theorem X16_highlighted_source (w rest s : string) :
  Claims.WordBefore w rest ->
  let className := Some ("language-" ++ w ++ rest) in
  BlogPost.code className (s ++ JsString.nl) = BlogPost.SyntaxHighlighter w "div" s
  /\ BlogPost.code className ((s ++ JsString.nl) ++ JsString.nl)
     = BlogPost.SyntaxHighlighter w "div" (s ++ JsString.nl)
  /\ (JsString.endsWith JsString.nl s = false ->
      BlogPost.code className s = BlogPost.SyntaxHighlighter w "div" s).
Proof.
  intros Hw className. unfold className, BlogPost.code. cbn [BlogPost.orEmpty].
  rewrite (execLanguage_exact _ _ Hw), !replace_nl_end_app.
  split; [reflexivity |]. split; [reflexivity |].
  intros H. unfold JsString.replace_nl_end. now rewrite H.
Qed.

Lemma X16_highlighted_source_witness :
  BlogPost.code (Some "language-js") ("const x=1;" ++ JsString.nl)
  = BlogPost.SyntaxHighlighter "js" "div" "const x=1;".
Proof.
  refine (proj1 (X16_highlighted_source "js" EmptyString "const x=1;" _)).
  repeat split. discriminate.
Defined.

(** ** Ties, other files, posts without a header *)

Section Stability.
Context {A : Type}.
Variable comparefn : A -> A -> option Z.
Variable key : A -> option Z.
Hypothesis comparefn_key : forall x y, comparefn x y = GenerateManifest.minus (key y) (key x).

Lemma insert_keeps_ties (k : Z) (x : A) (l : list A) :
  filter (Extra.keyed key k) (insert comparefn x l) = filter (Extra.keyed key k) (x :: l).
Proof.
  induction l as [| y l IH]; [reflexivity |].
  cbn [insert]. unfold SortCompare. rewrite comparefn_key.
  destruct (key y) as [ky |] eqn:Ey; destruct (key x) as [kx |] eqn:Ex; cbn [GenerateManifest.minus];
    try reflexivity.
  destruct (Z.ltb_spec 0 (ky - kx)); [| reflexivity].
  cbn [filter] in *. rewrite IH. unfold Extra.keyed. rewrite Ex, Ey.
  destruct (Z.eqb_spec kx k), (Z.eqb_spec ky k); try reflexivity. lia.
Qed.

Lemma sort_keeps_ties (k : Z) (l : list A) :
  filter (Extra.keyed key k) (sort comparefn l) = filter (Extra.keyed key k) l.
Proof.
  induction l as [| x l IH]; [reflexivity |].
  cbn [sort fold_right]. fold (sort comparefn l). rewrite insert_keeps_ties.
  cbn [filter]. now rewrite IH.
Qed.
End Stability.

(** X17: entries whose dates parse to the same instant keep the order
    of the directory listing: when every date parses, the entries of any one
    date appear in the manifest in the order in which their files were
    listed. *)
Theorem X17_equal_dates_keep_listing_order (root : string) (Date_parse : string -> option Z)
    (Date_toString : Z -> string) (disk : Node.FS) (listed : list GenerateManifest.Post)
    (k : Z) :
  fst (GenerateManifest.unsorted root Date_toString {| Node.fs := disk; Node.stdout := [] |})
  = Ok listed ->
  Claims.allDatesValid Date_parse Date_toString listed ->
  exists ps,
    fst (GenerateManifest.posts root Date_parse Date_toString
           {| Node.fs := disk; Node.stdout := [] |}) = Ok ps
    /\ filter (Extra.dated Date_parse Date_toString k) ps
       = filter (Extra.dated Date_parse Date_toString k) listed.
Proof.
  intros Hrun _. rewrite unsorted_run in Hrun. rewrite posts_run. cbn [fst] in *.
  rewrite Hrun. cbn [bind]. eexists. split; [reflexivity |].
  apply (sort_keeps_ties (GenerateManifest.newestFirst Date_parse Date_toString)
           (fun q => GenerateManifest.getTime Date_parse Date_toString (GenerateManifest.date q))).
  reflexivity.
Qed.

Lemma X17_equal_dates_keep_listing_order_witness :
  let file d := Node.File (JsString.unlines ["---"; "date: " ++ d; "---"; "text"]) in
  let disk := {| Node.unreadable := None;
                 Node.unwritable := None;
                 Node.entries := [("z.md", file "2025-01-01"); ("m.md", file "2025-06-01");
                                  ("a.md", file "2025-01-01")] |} in
  exists ps,
    fst (GenerateManifest.posts "/repo" JsDate.parse JsDate.toStringUTC
           {| Node.fs := disk; Node.stdout := [] |}) = Ok ps
    /\ map GenerateManifest.filename ps = ["m.md"; "z.md"; "a.md"]
    /\ map GenerateManifest.filename
         (filter (Extra.dated JsDate.parse JsDate.toStringUTC 1735689600000) ps)
       = ["z.md"; "a.md"].
Proof.
  intros file disk.
  destruct (fst (GenerateManifest.unsorted "/repo" JsDate.toStringUTC
                   {| Node.fs := disk; Node.stdout := [] |})) as [listed | e] eqn:Hrun.
  - assert (Hl : map GenerateManifest.filename listed = ["z.md"; "m.md"; "a.md"]
                 /\ Claims.allDatesValid JsDate.parse JsDate.toStringUTC listed
                 /\ map GenerateManifest.filename
                      (filter (Extra.dated JsDate.parse JsDate.toStringUTC 1735689600000) listed)
                    = ["z.md"; "a.md"]).
    { vm_compute in Hrun. injection Hrun as <-.
      split; [reflexivity |]. split; [| vm_compute; reflexivity].
      repeat constructor; vm_compute; discriminate. }
    destruct Hl as (_ & Hvalid & Hties).
    destruct (X17_equal_dates_keep_listing_order "/repo" JsDate.parse JsDate.toStringUTC disk
                listed 1735689600000 Hrun Hvalid) as (ps & Hps & Hsame).
    exists ps. split; [exact Hps |]. split.
    + vm_compute in Hps. injection Hps as <-. reflexivity.
    + rewrite Hsame. exact Hties.
  - vm_compute in Hrun. discriminate.
Defined.

Lemma load_after_other_store convert dir (disk : Node.FS) (name : string) (e : Node.DirEntry) :
  JsString.endsWith ".md" name = false ->
  mapR (Claims.load convert dir (Node.store name e (Node.entries disk)))
       (Claims.markdownNames disk)
  = mapR (Claims.load convert dir (Node.entries disk)) (Claims.markdownNames disk).
Proof.
  intros Hname. apply mapR_ext. intros n Hn. unfold Claims.load.
  rewrite lookup_store_other; [reflexivity |].
  intros ->. apply markdownNames_end_in_md in Hn. congruence.
Qed.

(** What the builder computes does not depend on a name that does not
    end in [.md]. *)
Lemma posts_ignore_other_names (root : string) (Date_parse : string -> option Z)
    (Date_toString : Z -> string) (disk : Node.FS) (name : string) (e : Node.DirEntry) :
  JsString.endsWith ".md" name = false ->
  let disk' := {| Node.unreadable := Node.unreadable disk;
                  Node.unwritable := Node.unwritable disk;
                  Node.entries := Node.store name e (Node.entries disk) |} in
  fst (GenerateManifest.posts root Date_parse Date_toString {| Node.fs := disk'; Node.stdout := [] |})
  = fst (GenerateManifest.posts root Date_parse Date_toString {| Node.fs := disk; Node.stdout := [] |})
  /\ fst (GenerateManifest.plain_posts root {| Node.fs := disk'; Node.stdout := [] |})
     = fst (GenerateManifest.plain_posts root {| Node.fs := disk; Node.stdout := [] |}).
Proof.
  intros Hname disk'. rewrite !posts_run, !plain_posts_run. cbn [fst Node.fs].
  unfold Claims.listing, Claims.markdownNames, disk'. cbn [Node.unreadable Node.entries].
  destruct (Node.unreadable disk); [split; reflexivity |]. cbn [bind].
  rewrite (store_names _ _ _ _ Hname).
  split.
  - f_equal. apply (load_after_other_store (GenerateManifest.entry Date_toString)). exact Hname.
  - apply (load_after_other_store GenerateManifest.plain_entry). exact Hname.
Qed.

Lemma ending_ignores_other_names (root : string) (disk : Node.FS) (name : string)
    (e : Node.DirEntry) r :
  name <> GenerateManifest.manifestName ->
  let disk' := {| Node.unreadable := Node.unreadable disk;
                  Node.unwritable := Node.unwritable disk;
                  Node.entries := Node.store name e (Node.entries disk) |} in
  Node.exitCode (Claims.ending root disk' r) = Node.exitCode (Claims.ending root disk r)
  /\ Node.out (Claims.ending root disk' r) = Node.out (Claims.ending root disk r)
  /\ Node.err (Claims.ending root disk' r) = Node.err (Claims.ending root disk r)
  /\ Node.lookup GenerateManifest.manifestName
       (Node.entries (Node.disk (Claims.ending root disk' r)))
     = Node.lookup GenerateManifest.manifestName
         (Node.entries (Node.disk (Claims.ending root disk r))).
Proof.
  intros Hne disk'. subst disk'.
  assert (Hl : Node.lookup GenerateManifest.manifestName
                 (Node.store name e (Node.entries disk))
               = Node.lookup GenerateManifest.manifestName (Node.entries disk))
    by (apply lookup_store_other; congruence).
  unfold Claims.ending. cbn [Node.unwritable Node.unreadable Node.entries].
  destruct r as [ps | err]; [| repeat split; exact Hl].
  rewrite Hl.
  destruct (Node.unwritable disk) as [wcode |],
    (Node.lookup GenerateManifest.manifestName (Node.entries disk)) as [[text | code] |];
    cbn [Node.exitCode Node.out Node.err Node.disk Node.entries];
    repeat split;
    solve [exact Hl | now rewrite !lookup_store | apply lookup_store_other; congruence].
Qed.

(** X18: a name that does not end in [.md], in lower case, and is not
    the manifest's own has no influence on the build: adding or replacing
    such a file or directory changes neither the entries the builder
    computes nor how the run ends: the exit code, the output, the errors
    and the manifest file are the same. *)
Theorem X18_other_names_do_not_matter (root : string) (Date_parse : string -> option Z)
    (Date_toString : Z -> string) (disk : Node.FS) (name : string) (e : Node.DirEntry)
    (script : Node.M unit) :
  script = GenerateManifest.plain_main root
  \/ script = GenerateManifest.main root Date_parse Date_toString ->
  JsString.endsWith ".md" name = false ->
  name <> "manifest.json" ->
  let disk' := {| Node.unreadable := Node.unreadable disk;
                  Node.unwritable := Node.unwritable disk;
                  Node.entries := Node.store name e (Node.entries disk) |} in
  fst (GenerateManifest.posts root Date_parse Date_toString {| Node.fs := disk'; Node.stdout := [] |})
  = fst (GenerateManifest.posts root Date_parse Date_toString {| Node.fs := disk; Node.stdout := [] |})
  /\ fst (GenerateManifest.plain_posts root {| Node.fs := disk'; Node.stdout := [] |})
     = fst (GenerateManifest.plain_posts root {| Node.fs := disk; Node.stdout := [] |})
  /\ Node.exitCode (Node.run script disk') = Node.exitCode (Node.run script disk)
  /\ Node.out (Node.run script disk') = Node.out (Node.run script disk)
  /\ Node.err (Node.run script disk') = Node.err (Node.run script disk)
  /\ Node.lookup "manifest.json" (Node.entries (Node.disk (Node.run script disk')))
     = Node.lookup "manifest.json" (Node.entries (Node.disk (Node.run script disk))).
Proof.
  intros Hs Hname Hne disk'.
  destruct (posts_ignore_other_names root Date_parse Date_toString disk name e Hname)
    as [Hposts Hplain].
  fold disk' in Hposts, Hplain.
  split; [exact Hposts |]. split; [exact Hplain |].
  destruct Hs as [-> | ->].
  - rewrite !plain_main_run, Hplain. exact (ending_ignores_other_names root disk name e _ Hne).
  - rewrite !main_run, Hposts. exact (ending_ignores_other_names root disk name e _ Hne).
Qed.

Lemma X18_other_names_do_not_matter_witness :
  let script := GenerateManifest.main "/repo" JsDate.parse JsDate.toStringUTC in
  let disk' := {| Node.unreadable := None;
                  Node.unwritable := None;
                  Node.entries := Node.store "README.MD" (Node.NoFile "EISDIR")
                                    (Node.entries scenario) |} in
  Node.exitCode (Node.run script disk') = Node.exitCode (Node.run script scenario)
  /\ Node.lookup "manifest.json" (Node.entries (Node.disk (Node.run script disk')))
     = Node.lookup "manifest.json" (Node.entries (Node.disk (Node.run script scenario))).
Proof.
  intros script disk'.
  destruct (X18_other_names_do_not_matter "/repo" JsDate.parse JsDate.toStringUTC scenario
              "README.MD" (Node.NoFile "EISDIR") script (or_intror eq_refl) eq_refl
              ltac:(discriminate)) as (_ & _ & Hexit & _ & _ & Hfile).
  split; [exact Hexit | exact Hfile].
Defined.


